(** * The x402 Stacks sponsor relay: the [/relay] request pipeline

    A shallow embedding of [src/index.ts] (the Cloudflare Worker of the
    relay) and the properties of its request pipeline and of its in-memory
    rate limiter.

    The worker is one [fetch] handler.  It reads the request, calls three
    functions of the external [@stacks/transactions] library
    ([deserializeTransaction], [sponsorTransaction], [broadcastTransaction]),
    keeps one module-level [Map] ([rateLimitMap]) and emits log events.  The
    embedding threads that state through a small state-and-exception monad
    and records every ambient or external call in an effect trace, so that
    "the sponsor function is never invoked" is a statement about the trace. *)

From Stdlib Require Import ZArith Floats Lia Ascii String.
From stdpp Require Import base option list gmap strings.

Local Open Scope string_scope.
Local Open Scope list_scope.
Local Open Scope Z_scope.

#[local] Set Warnings "-register-all".

(** * JavaScript values *)

(** What [request.json()] can produce, plus [undefined] (the value of a
    property that is not there).  A JavaScript string is modelled by its
    UTF-8 bytes; the only string operations of the handler ([startsWith] and
    [slice] on the ASCII prefix ["0x"]) agree on both encodings. *)
Inductive JsValue : Type :=
| JUndefined
| JNull
| JBool (b : bool)
| JNumber (x : float)
| JString (s : string)
| JArray (items : list JsValue)
| JObject (fields : list (string * JsValue)).

(** [!v] is [negb (truthy v)]: the falsy values are [undefined], [null],
    [false], [0], [-0], [NaN] and the empty string. *)
Definition truthy (v : JsValue) : bool :=
  match v with
  | JUndefined | JNull => false
  | JBool b => b
  | JNumber x => negb (PrimFloat.is_zero x || PrimFloat.is_nan x)
  | JString s => negb (String.eqb s "")
  | JArray _ | JObject _ => true
  end.

(** Truthiness of an optional string ([string | undefined]). *)
Definition truthyStr (o : option string) : bool :=
  match o with
  | Some s => negb (String.eqb s "")
  | None => false
  end.

(** A thrown value: an [Error] instance with its [message], or anything
    else. *)
Inductive Thrown : Type :=
| ErrorObject (message : string)
| NonError.

(** [e instanceof Error ? e.message : "Unknown error"] *)
Definition errorMessage (e : Thrown) : string :=
  match e with
  | ErrorObject m => m
  | NonError => "Unknown error"
  end.

Fixpoint assoc (k : string) (fields : list (string * JsValue)) : option JsValue :=
  match fields with
  | [] => None
  | (k', v) :: rest => if String.eqb k k' then Some v else assoc k rest
  end.

(** [body.transaction].  Reading a property of [null] or [undefined] throws
    a [TypeError] (the message is the engine's); a primitive or an array has
    no property of that name.  A parsed object holds each key once. *)
Definition get_transaction (body : JsValue) : Thrown + JsValue :=
  match body with
  | JUndefined | JNull =>
      inl (ErrorObject "Cannot read properties of null (reading 'transaction')")
  | JObject fields => inr (default JUndefined (assoc "transaction" fields))
  | _ => inr JUndefined
  end.

(** [s.startsWith(p)] and [s.slice(n)] *)
Fixpoint startsWith (p s : string) : bool :=
  match p, s with
  | EmptyString, _ => true
  | String a p', String b s' => Ascii.eqb a b && startsWith p' s'
  | String _ _, EmptyString => false
  end.

Fixpoint slice (n : nat) (s : string) : string :=
  match n, s with
  | O, _ => s
  | S n', String _ rest => slice n' rest
  | S _, EmptyString => EmptyString
  end.

(** [Buffer.from(s).toString("hex")] *)
Definition hexDigit (n : nat) : ascii :=
  nth n (list_ascii_of_string "0123456789abcdef") "0"%char.

Fixpoint toHex (s : string) : string :=
  match s with
  | EmptyString => EmptyString
  | String c rest =>
      String (hexDigit (Nat.div (nat_of_ascii c) 16))
        (String (hexDigit (Nat.modulo (nat_of_ascii c) 16)) (toHex rest))
  end.

(** * The [@stacks/transactions] interface *)

(** [AuthType.Standard = 0x04], [AuthType.Sponsored = 0x05]. *)
Inductive AuthType : Type := Standard | Sponsored.

Definition AuthType_eqb (a b : AuthType) : bool :=
  match a, b with
  | Standard, Standard | Sponsored, Sponsored => true
  | _, _ => false
  end.

(** The parts of a decoded transaction that the relay reads:
    [transaction.auth.authType] and
    [transaction.auth.spendingCondition.signer]; the rest of the transaction
    is carried along as [payload]. *)
Record SpendingCondition : Type := { signer : string; nonce : Z; fee : Z }.

Record Authorization : Type := {
  authType : AuthType;
  spendingCondition : SpendingCondition;
  sponsorSpendingCondition : option SpendingCondition
}.

Record StacksTransaction : Type := { auth : Authorization; payload : string }.

Inductive StacksNetwork : Type := STACKS_MAINNET | STACKS_TESTNET.

(** The broadcast result as the handler casts it:
    [{ txid?: string; error?: string; reason?: string }]. *)
Record BroadcastResult : Type := {
  br_txid : option string;
  br_error : option string;
  br_reason : option string
}.

(** The three library functions.  Each either throws or returns. *)
Record StacksLib : Type := {
  deserializeTransaction : string -> Thrown + StacksTransaction;
  sponsorTransaction :
    StacksTransaction -> string -> StacksNetwork -> Thrown + StacksTransaction;
  broadcastTransaction :
    StacksTransaction -> StacksNetwork -> Thrown + BroadcastResult
}.

(** * Requests, configuration and responses *)

(** [json] is the outcome of [request.json()]. *)
Record Request : Type := {
  method : string;
  pathname : string;
  json : Thrown + JsValue
}.

(** [SPONSOR_PRIVATE_KEY] is a secret and may be unset. *)
Record Env : Type := {
  STACKS_NETWORK : string;
  SPONSOR_PRIVATE_KEY : option string
}.

(** [interface RelayResponse]; [JSON.stringify] leaves out a field that is
    [undefined] ([None]). *)
Record RelayResponse : Type := {
  txid : option string;
  error : option string;
  details : option string
}.

Inductive ResponseBody : Type :=
| BodyNull
| BodyText (text : string)
| BodyHealth (status network version : string)
| BodyRelay (r : RelayResponse).

Record Response : Type := {
  status : Z;
  headers : list (string * string);
  body : ResponseBody
}.

(** * The effect trace and the world *)

Inductive LogLevel : Type := Info | Warn | Error | Debug.

Inductive LogValue : Type :=
| LogString (s : string)
| LogAuthType (a : AuthType)
| LogOptional (o : option string).

(** One entry per call that leaves the handler: the clock, the Stacks
    library and the [LOGS] binding. *)
Inductive Effect : Type :=
| CallDateNow
| CallDeserialize (txHex : string)
| CallSponsor (transaction : StacksTransaction) (sponsorPrivateKey : string)
    (network : StacksNetwork)
| CallBroadcast (transaction : StacksTransaction) (network : StacksNetwork)
| CallLog (level : LogLevel) (appId message : string)
    (context : list (string * LogValue)).

(** An entry of the map.  Both fields are JavaScript numbers that hold
    integers (a count, a time in milliseconds), far below [2^53]. *)
Record RateLimitEntry : Type := { count : Z; resetAt : Z }.

(** [rateLimitMap] is the module-level map; [clock] is what [Date.now()]
    returns; [effects] is the trace so far, oldest first. *)
Record World : Type := {
  rateLimitMap : gmap string RateLimitEntry;
  clock : Z;
  effects : list Effect
}.

Definition setRateLimitMap (m : gmap string RateLimitEntry) (w : World) : World :=
  {| rateLimitMap := m; clock := clock w; effects := effects w |}.

Definition setClock (t : Z) (w : World) : World :=
  {| rateLimitMap := rateLimitMap w; clock := t; effects := effects w |}.

Definition record (e : Effect) (w : World) : World :=
  {| rateLimitMap := rateLimitMap w; clock := clock w;
     effects := effects w ++ [e] |}.

(** * The monad: state and exceptions *)

Definition M (A : Type) : Type := World -> (Thrown + A) * World.

Definition ret {A} (a : A) : M A := fun w => (inr a, w).

Definition throw {A} (e : Thrown) : M A := fun w => (inl e, w).

Definition bind {A B} (m : M A) (k : A -> M B) : M B :=
  fun w =>
    match m w with
    | (inr a, w') => k a w'
    | (inl e, w') => (inl e, w')
    end.

(** [try { m } catch (e) { h e }] *)
Definition tryCatch {A} (m : M A) (h : Thrown -> M A) : M A :=
  fun w =>
    match m w with
    | (inr a, w') => (inr a, w')
    | (inl e, w') => h e w'
    end.

(** A call that throws or returns, recorded in the trace. *)
Definition call {A} (e : Effect) (r : Thrown + A) : M A :=
  fun w => (r, record e w).

Definition lift {A} (r : Thrown + A) : M A := fun w => (r, w).

Declare Scope relay_scope.
Delimit Scope relay_scope with relay.
Notation "'let*' x ':=' m 'in' k" := (bind m (fun x => k))
  (at level 10, x name, m at level 100, k at level 200) : relay_scope.
Notation "m '>>' k" := (bind m (fun _ => k))
  (at level 100, k at level 200, right associativity) : relay_scope.
Local Open Scope relay_scope.

(** * The rate limiter *)

Definition RATE_LIMIT : Z := 10.
Definition RATE_WINDOW_MS : Z := 60 * 1000.

Definition Date_now : M Z := fun w => (inr (clock w), record CallDateNow w).

Definition mapGet (address : string) : M (option RateLimitEntry) :=
  fun w => (inr (rateLimitMap w !! address), w).

Definition mapSet (address : string) (e : RateLimitEntry) : M unit :=
  fun w => (inr tt, setRateLimitMap (<[address := e]> (rateLimitMap w)) w).

(** [checkRateLimit].  [entry.count++] updates the object held by the map,
    which is the entry of [address]. *)
Definition checkRateLimit (address : string) : M bool :=
  let* now := Date_now in
  let* entry := mapGet address in
  match entry with
  | None =>
      mapSet address {| count := 1; resetAt := now + RATE_WINDOW_MS |} >>
      ret true
  | Some entry =>
      if now >? resetAt entry then
        mapSet address {| count := 1; resetAt := now + RATE_WINDOW_MS |} >>
        ret true
      else if count entry >=? RATE_LIMIT then
        ret false
      else
        mapSet address {| count := count entry + 1; resetAt := resetAt entry |} >>
        ret true
  end.

(** * The handler *)

Definition APP_ID : string := "x402-relay".

(** [getNetwork] *)
Definition getNetwork (env : Env) : StacksNetwork :=
  if String.eqb (STACKS_NETWORK env) "mainnet" then STACKS_MAINNET
  else STACKS_TESTNET.

Definition corsHeaders : list (string * string) :=
  [ ("Access-Control-Allow-Origin", "*");
    ("Access-Control-Allow-Methods", "GET, POST, OPTIONS");
    ("Access-Control-Allow-Headers", "Content-Type") ].

(** [ctx.waitUntil(logs.<level>(APP_ID, message, context))]: the call is
    issued and the handler goes on. *)
Definition logs (level : LogLevel) (message : string)
    (context : list (string * LogValue)) : M unit :=
  fun w => (inr tt, record (CallLog level APP_ID message context) w).

(** [new Response(JSON.stringify(r), { status,
    headers: { "Content-Type": "application/json", ...corsHeaders } })] *)
Definition jsonResponse (st : Z) (r : RelayResponse) : Response :=
  {| status := st;
     headers := ("Content-Type", "application/json") :: corsHeaders;
     body := BodyRelay r |}.

Definition errorBody (e : string) (d : option string) : RelayResponse :=
  {| txid := None; error := Some e; details := d |}.

(** [try { x = f() } catch (e) { ... }] around one call: the outcome of the
    call, thrown or returned, is handed to what follows. *)
Definition attempt {A} (m : M A) : M (Thrown + A) :=
  fun w => let '(r, w') := m w in (inr r, w').

(** [body.transaction.startsWith("0x") ? body.transaction.slice(2)
    : body.transaction] *)
Definition txHexOf (transaction : string) : string :=
  if startsWith "0x" transaction then slice 2 transaction else transaction.

(** The body of the [try] block of the [/relay] branch. *)
Definition relay (lib : StacksLib) (request : Request) (env : Env)
    (requestId : string) : M Response :=
  let* body := lift (json request) in
  let* transactionField := lift (get_transaction body) in
  if negb (truthy transactionField) then
    ret (jsonResponse 400 (errorBody "Missing transaction field" None))
  else
    let* txHex :=
      match transactionField with
      | JString s => ret (txHexOf s)
      | _ => throw (ErrorObject "body.transaction.startsWith is not a function")
      end in
    let* decoded :=
      attempt (call (CallDeserialize txHex) (deserializeTransaction lib txHex)) in
    match decoded with
    | inl e =>
        logs Warn "Failed to deserialize transaction"
          [("request_id", LogString requestId);
           ("error", LogString (errorMessage e))] >>
        ret (jsonResponse 400
               (errorBody "Invalid transaction"
                  (Some "Could not deserialize transaction hex")))
    | inr transaction =>
        if negb (AuthType_eqb (authType (auth transaction)) Sponsored) then
          logs Warn "Transaction not sponsored"
            [("request_id", LogString requestId);
             ("auth_type", LogAuthType (authType (auth transaction)))] >>
          ret (jsonResponse 400
                 (errorBody "Transaction must be sponsored"
                    (Some "Build transaction with sponsored: true")))
        else
          let senderAddress := signer (spendingCondition (auth transaction)) in
          let senderHex := toHex senderAddress in
          let* admitted := checkRateLimit senderHex in
          if negb admitted then
            logs Warn "Rate limit exceeded"
              [("request_id", LogString requestId);
               ("sender", LogString senderHex)] >>
            ret (jsonResponse 429
                   (errorBody "Rate limit exceeded"
                      (Some "Maximum 10 requests per minute")))
          else if negb (truthyStr (SPONSOR_PRIVATE_KEY env)) then
            logs Error "Sponsor key not configured"
              [("request_id", LogString requestId)] >>
            ret (jsonResponse 500
                   (errorBody "Service not configured"
                      (Some "Sponsor key missing")))
          else
            let sponsorPrivateKey := default "" (SPONSOR_PRIVATE_KEY env) in
            let network := getNetwork env in
            let* sponsored :=
              attempt (call (CallSponsor transaction sponsorPrivateKey network)
                         (sponsorTransaction lib transaction sponsorPrivateKey
                            network)) in
            match sponsored with
            | inl e =>
                logs Error "Failed to sponsor transaction"
                  [("request_id", LogString requestId);
                   ("error", LogString (errorMessage e))] >>
                ret (jsonResponse 500
                       (errorBody "Failed to sponsor transaction"
                          (Some (errorMessage e))))
            | inr sponsoredTx =>
                let* broadcast :=
                  attempt (call (CallBroadcast sponsoredTx network)
                             (broadcastTransaction lib sponsoredTx network)) in
                match broadcast with
                | inl e =>
                    logs Error "Failed to broadcast transaction"
                      [("request_id", LogString requestId);
                       ("error", LogString (errorMessage e))] >>
                    ret (jsonResponse 500
                           (errorBody "Failed to broadcast transaction"
                              (Some (errorMessage e))))
                | inr broadcastResult =>
                    if truthyStr (br_error broadcastResult) then
                      logs Error "Broadcast rejected"
                        [("request_id", LogString requestId);
                         ("error", LogOptional (br_error broadcastResult));
                         ("reason", LogOptional (br_reason broadcastResult))] >>
                      ret (jsonResponse 400
                             (errorBody "Broadcast rejected"
                                (if truthyStr (br_reason broadcastResult)
                                 then br_reason broadcastResult
                                 else br_error broadcastResult)))
                    else
                      let txid := br_txid broadcastResult in
                      logs Info "Transaction sponsored and broadcast"
                        [("request_id", LogString requestId);
                         ("txid", LogOptional txid);
                         ("sender", LogString senderHex)] >>
                      ret (jsonResponse 200
                             {| txid := txid; error := None; details := None |})
                end
            end
    end.

(** [fetch]; [requestId] is the value of [crypto.randomUUID()]. *)
Definition fetch (lib : StacksLib) (request : Request) (env : Env)
    (requestId : string) : M Response :=
  if String.eqb (method request) "OPTIONS" then
    ret {| status := 200; headers := corsHeaders; body := BodyNull |}
  else if String.eqb (pathname request) "/health" then
    ret {| status := 200;
           headers := ("Content-Type", "application/json") :: corsHeaders;
           body := BodyHealth "ok" (STACKS_NETWORK env) "0.1.0" |}
  else if String.eqb (pathname request) "/relay"
          && String.eqb (method request) "POST" then
    logs Info "Relay request received" [("request_id", LogString requestId)] >>
    tryCatch (relay lib request env requestId)
      (fun e =>
         logs Error "Unexpected error"
           [("request_id", LogString requestId);
            ("error", LogString (errorMessage e))] >>
         ret (jsonResponse 500
                (errorBody "Internal server error" (Some (errorMessage e)))))
  else
    ret {| status := 200;
           headers := ("Content-Type", "text/plain") :: corsHeaders;
           body := BodyText "x402 Stacks Sponsor Relay

POST /relay - Submit sponsored transaction
GET /health - Health check" |}.

(** * Runs *)

(** A [POST] to [/relay] whose [request.json()] has the outcome [j]. *)
Definition relayPost (j : Thrown + JsValue) : Request :=
  {| method := "POST"; pathname := "/relay"; json := j |}.

(** The limiter called for one sender at the given times, one call after
    the other, with the outcome of each call. *)
Fixpoint admissions (address : string) (times : list Z) (w : World)
    : list (Thrown + bool) * World :=
  match times with
  | [] => ([], w)
  | t :: rest =>
      let '(r, w1) := checkRateLimit address (setClock t w) in
      let '(rs, w2) := admissions address rest w1 in
      (r :: rs, w2)
  end.

(** What an instance of the worker does, one step at a time: a call of the
    limiter or a whole request, each at its own clock value. *)
Inductive Step : Type :=
| LimiterCall (address : string)
| Handle (lib : StacksLib) (request : Request) (env : Env) (requestId : string).

Definition step (w : World) (ts : Z * Step) : World :=
  match ts with
  | (t, LimiterCall address) => snd (checkRateLimit address (setClock t w))
  | (t, Handle lib request env requestId) =>
      snd (fetch lib request env requestId (setClock t w))
  end.

Definition run (steps : list (Z * Step)) (w : World) : World :=
  fold_left step steps w.

(** The world of a fresh instance: [new Map()]. *)
Definition initialWorld : World :=
  {| rateLimitMap := ∅; clock := 0; effects := [] |}.

Definition countsBounded (m : gmap string RateLimitEntry) : Prop :=
  forall k e, m !! k = Some e -> 1 <= count e <= RATE_LIMIT.

(** The pipeline stage that a call belongs to; log calls belong to none. *)
Inductive Stage : Type := Validate | RateLimit | Sponsor | Broadcast.

Definition stageOf (e : Effect) : option Stage :=
  match e with
  | CallDeserialize _ => Some Validate
  | CallDateNow => Some RateLimit
  | CallSponsor _ _ _ => Some Sponsor
  | CallBroadcast _ _ => Some Broadcast
  | CallLog _ _ _ _ => None
  end.

Definition stages (tr : list Effect) : list Stage := omap stageOf tr.


(** A non-empty string of hexadecimal digits. *)
Definition isHexDigit (c : ascii) : bool :=
  let n := nat_of_ascii c in
  ((48 <=? n) && (n <=? 57) || (97 <=? n) && (n <=? 102)
   || (65 <=? n) && (n <=? 70))%nat.

Fixpoint allHex (s : string) : bool :=
  match s with
  | EmptyString => true
  | String c rest => isHexDigit c && allHex rest
  end.

Definition isHexString (s : string) : bool :=
  negb (String.eqb s "") && allHex s.

(** The world with further calls appended to its trace. *)
Definition extend (tr : list Effect) (w : World) : World :=
  {| rateLimitMap := rateLimitMap w; clock := clock w;
     effects := effects w ++ tr |}.

(** The log events of the handler. *)
Definition logReceived (requestId : string) : Effect :=
  CallLog Info APP_ID "Relay request received"
    [("request_id", LogString requestId)].

Definition logUnexpected (requestId : string) (e : Thrown) : Effect :=
  CallLog Error APP_ID "Unexpected error"
    [("request_id", LogString requestId);
     ("error", LogString (errorMessage e))].

Definition logDeserializeFailed (requestId : string) (e : Thrown) : Effect :=
  CallLog Warn APP_ID "Failed to deserialize transaction"
    [("request_id", LogString requestId);
     ("error", LogString (errorMessage e))].

Definition logNotSponsored (requestId : string) (a : AuthType) : Effect :=
  CallLog Warn APP_ID "Transaction not sponsored"
    [("request_id", LogString requestId); ("auth_type", LogAuthType a)].

Definition logRateLimited (requestId senderHex : string) : Effect :=
  CallLog Warn APP_ID "Rate limit exceeded"
    [("request_id", LogString requestId); ("sender", LogString senderHex)].

Definition logNoKey (requestId : string) : Effect :=
  CallLog Error APP_ID "Sponsor key not configured"
    [("request_id", LogString requestId)].

Definition logSponsorFailed (requestId : string) (e : Thrown) : Effect :=
  CallLog Error APP_ID "Failed to sponsor transaction"
    [("request_id", LogString requestId);
     ("error", LogString (errorMessage e))].

Definition logBroadcastFailed (requestId : string) (e : Thrown) : Effect :=
  CallLog Error APP_ID "Failed to broadcast transaction"
    [("request_id", LogString requestId);
     ("error", LogString (errorMessage e))].

Definition logRejected (requestId : string) (r : BroadcastResult) : Effect :=
  CallLog Error APP_ID "Broadcast rejected"
    [("request_id", LogString requestId);
     ("error", LogOptional (br_error r));
     ("reason", LogOptional (br_reason r))].

Definition logSuccess (requestId senderHex : string) (r : BroadcastResult)
    : Effect :=
  CallLog Info APP_ID "Transaction sponsored and broadcast"
    [("request_id", LogString requestId);
     ("txid", LogOptional (br_txid r));
     ("sender", LogString senderHex)].

(** The rate-limit key of a decoded transaction. *)
Definition senderHexOf (transaction : StacksTransaction) : string :=
  toHex (signer (spendingCondition (auth transaction))).

(** The world once the limiter has been called for [address]. *)
Definition afterLimiter (address : string) (w : World) : World :=
  setRateLimitMap (rateLimitMap (snd (checkRateLimit address w))) w.

(** The credential handed to [sponsorTransaction]. *)
Definition sponsorKey (env : Env) : string :=
  default "" (SPONSOR_PRIVATE_KEY env).

(** The calls that one [POST /relay] adds to the trace. *)
Definition relayTrace (lib : StacksLib) (j : Thrown + JsValue) (env : Env)
    (requestId : string) (w : World) : list Effect :=
  drop (length (effects w))
    (effects (snd (fetch lib (relayPost j) env requestId w))).

(** The paths through the [/relay] branch, one constructor per [return]:
    the response, the calls made, and the world they are appended to. *)
Inductive RelayPath (lib : StacksLib) (env : Env) (id : string) (w : World)
    : Thrown + JsValue -> Response -> list Effect -> World -> Prop :=
| PathJsonThrows e :
    RelayPath lib env id w (inl e)
      (jsonResponse 500
         (errorBody "Internal server error" (Some (errorMessage e))))
      [logReceived id; logUnexpected id e] w
| PathBodyThrows body e :
    get_transaction body = inl e ->
    RelayPath lib env id w (inr body)
      (jsonResponse 500
         (errorBody "Internal server error" (Some (errorMessage e))))
      [logReceived id; logUnexpected id e] w
| PathMissing body v :
    get_transaction body = inr v -> truthy v = false ->
    RelayPath lib env id w (inr body)
      (jsonResponse 400 (errorBody "Missing transaction field" None))
      [logReceived id] w
| PathNotString body v :
    get_transaction body = inr v -> truthy v = true ->
    (forall s, v <> JString s) ->
    RelayPath lib env id w (inr body)
      (jsonResponse 500
         (errorBody "Internal server error"
            (Some "body.transaction.startsWith is not a function")))
      [logReceived id;
       logUnexpected id
         (ErrorObject "body.transaction.startsWith is not a function")] w
| PathMalformed body s e :
    get_transaction body = inr (JString s) -> s <> "" ->
    deserializeTransaction lib (txHexOf s) = inl e ->
    RelayPath lib env id w (inr body)
      (jsonResponse 400
         (errorBody "Invalid transaction"
            (Some "Could not deserialize transaction hex")))
      [logReceived id; CallDeserialize (txHexOf s); logDeserializeFailed id e]
      w
| PathNotSponsored body s tx :
    get_transaction body = inr (JString s) -> s <> "" ->
    deserializeTransaction lib (txHexOf s) = inr tx ->
    authType (auth tx) <> Sponsored ->
    RelayPath lib env id w (inr body)
      (jsonResponse 400
         (errorBody "Transaction must be sponsored"
            (Some "Build transaction with sponsored: true")))
      [logReceived id; CallDeserialize (txHexOf s);
       logNotSponsored id (authType (auth tx))] w
| PathRateLimited body s tx :
    get_transaction body = inr (JString s) -> s <> "" ->
    deserializeTransaction lib (txHexOf s) = inr tx ->
    authType (auth tx) = Sponsored ->
    fst (checkRateLimit (senderHexOf tx) w) = inr false ->
    RelayPath lib env id w (inr body)
      (jsonResponse 429
         (errorBody "Rate limit exceeded"
            (Some "Maximum 10 requests per minute")))
      [logReceived id; CallDeserialize (txHexOf s); CallDateNow;
       logRateLimited id (senderHexOf tx)] w
| PathNoKey body s tx :
    get_transaction body = inr (JString s) -> s <> "" ->
    deserializeTransaction lib (txHexOf s) = inr tx ->
    authType (auth tx) = Sponsored ->
    fst (checkRateLimit (senderHexOf tx) w) = inr true ->
    truthyStr (SPONSOR_PRIVATE_KEY env) = false ->
    RelayPath lib env id w (inr body)
      (jsonResponse 500
         (errorBody "Service not configured" (Some "Sponsor key missing")))
      [logReceived id; CallDeserialize (txHexOf s); CallDateNow; logNoKey id]
      (afterLimiter (senderHexOf tx) w)
| PathSponsorThrows body s tx e :
    get_transaction body = inr (JString s) -> s <> "" ->
    deserializeTransaction lib (txHexOf s) = inr tx ->
    authType (auth tx) = Sponsored ->
    fst (checkRateLimit (senderHexOf tx) w) = inr true ->
    truthyStr (SPONSOR_PRIVATE_KEY env) = true ->
    sponsorTransaction lib tx (sponsorKey env) (getNetwork env) = inl e ->
    RelayPath lib env id w (inr body)
      (jsonResponse 500
         (errorBody "Failed to sponsor transaction" (Some (errorMessage e))))
      [logReceived id; CallDeserialize (txHexOf s); CallDateNow;
       CallSponsor tx (sponsorKey env) (getNetwork env);
       logSponsorFailed id e]
      (afterLimiter (senderHexOf tx) w)
| PathBroadcastThrows body s tx stx e :
    get_transaction body = inr (JString s) -> s <> "" ->
    deserializeTransaction lib (txHexOf s) = inr tx ->
    authType (auth tx) = Sponsored ->
    fst (checkRateLimit (senderHexOf tx) w) = inr true ->
    truthyStr (SPONSOR_PRIVATE_KEY env) = true ->
    sponsorTransaction lib tx (sponsorKey env) (getNetwork env) = inr stx ->
    broadcastTransaction lib stx (getNetwork env) = inl e ->
    RelayPath lib env id w (inr body)
      (jsonResponse 500
         (errorBody "Failed to broadcast transaction"
            (Some (errorMessage e))))
      [logReceived id; CallDeserialize (txHexOf s); CallDateNow;
       CallSponsor tx (sponsorKey env) (getNetwork env);
       CallBroadcast stx (getNetwork env); logBroadcastFailed id e]
      (afterLimiter (senderHexOf tx) w)
| PathRejected body s tx stx r :
    get_transaction body = inr (JString s) -> s <> "" ->
    deserializeTransaction lib (txHexOf s) = inr tx ->
    authType (auth tx) = Sponsored ->
    fst (checkRateLimit (senderHexOf tx) w) = inr true ->
    truthyStr (SPONSOR_PRIVATE_KEY env) = true ->
    sponsorTransaction lib tx (sponsorKey env) (getNetwork env) = inr stx ->
    broadcastTransaction lib stx (getNetwork env) = inr r ->
    truthyStr (br_error r) = true ->
    RelayPath lib env id w (inr body)
      (jsonResponse 400
         (errorBody "Broadcast rejected"
            (if truthyStr (br_reason r) then br_reason r else br_error r)))
      [logReceived id; CallDeserialize (txHexOf s); CallDateNow;
       CallSponsor tx (sponsorKey env) (getNetwork env);
       CallBroadcast stx (getNetwork env); logRejected id r]
      (afterLimiter (senderHexOf tx) w)
| PathSuccess body s tx stx r :
    get_transaction body = inr (JString s) -> s <> "" ->
    deserializeTransaction lib (txHexOf s) = inr tx ->
    authType (auth tx) = Sponsored ->
    fst (checkRateLimit (senderHexOf tx) w) = inr true ->
    truthyStr (SPONSOR_PRIVATE_KEY env) = true ->
    sponsorTransaction lib tx (sponsorKey env) (getNetwork env) = inr stx ->
    broadcastTransaction lib stx (getNetwork env) = inr r ->
    truthyStr (br_error r) = false ->
    RelayPath lib env id w (inr body)
      (jsonResponse 200
         {| txid := br_txid r; error := None; details := None |})
      [logReceived id; CallDeserialize (txHexOf s); CallDateNow;
       CallSponsor tx (sponsorKey env) (getNetwork env);
       CallBroadcast stx (getNetwork env);
       logSuccess id (senderHexOf tx) r]
      (afterLimiter (senderHexOf tx) w).

(** * Sample inputs *)

Definition sponsoredTx : StacksTransaction :=
  {| auth := {| authType := Sponsored;
                spendingCondition := {| signer := "ab"; nonce := 0; fee := 0 |};
                sponsorSpendingCondition := None |};
     payload := "transfer" |}.

Definition standardTx : StacksTransaction :=
  {| auth := {| authType := Standard;
                spendingCondition := {| signer := "ab"; nonce := 0; fee := 0 |};
                sponsorSpendingCondition := None |};
     payload := "transfer" |}.

(** A library that decodes ["05"] to a sponsored and ["04"] to a standard
    transaction of the signer ["ab"], sponsors anything, and answers every
    broadcast with [broadcast]. *)
Definition sampleLib (broadcast : Thrown + BroadcastResult) : StacksLib :=
  {| deserializeTransaction hex :=
       if String.eqb hex "05" then inr sponsoredTx
       else if String.eqb hex "04" then inr standardTx
       else inl (ErrorObject "Could not parse transaction");
     sponsorTransaction tx key _ :=
       inr {| auth := {| authType := Sponsored;
                         spendingCondition := spendingCondition (auth tx);
                         sponsorSpendingCondition :=
                           Some {| signer := key; nonce := 0; fee := 180 |} |};
              payload := payload tx |};
     broadcastTransaction _ _ := broadcast |}.

Definition sampleEnv : Env :=
  {| STACKS_NETWORK := "testnet"; SPONSOR_PRIVATE_KEY := Some "secret" |}.

Definition unconfiguredEnv : Env :=
  {| STACKS_NETWORK := "testnet"; SPONSOR_PRIVATE_KEY := None |}.

(** [{ "transaction": v }] *)
Definition bodyWith (v : JsValue) : JsValue := JObject [("transaction", v)].

(** The signer ["ab"] has used up the window that ends at [60000]. *)
Definition exhaustedWorld (now : Z) : World :=
  {| rateLimitMap := {[ toHex "ab" := {| count := 10; resetAt := 60000 |} ]};
     clock := now;
     effects := [] |}.

(** The signer ["ab"] has made three calls in the window that ends at
    [60000]. *)
Definition busyWorld : World :=
  {| rateLimitMap := {[ toHex "ab" := {| count := 3; resetAt := 60000 |} ]};
     clock := 2000;
     effects := [] |}.

(** Eleven calls of the limiter for the signer ["ab"] in one window, then a
    request of the same signer. *)
Definition sampleSteps : list (Z * Step) :=
  map (fun t => (t, LimiterCall (toHex "ab")))
    [0; 1; 2; 3; 4; 5; 6; 7; 8; 9; 10]
  ++ [(11, Handle (sampleLib (inr {| br_txid := Some "0xabc";
                                     br_error := None;
                                     br_reason := None |}))
             (relayPost (inr (bodyWith (JString "05")))) sampleEnv "id")].

(** Broadcast results: a rejection that also carries a [txid], a result
    with no field at all, a rejection whose [reason] is the empty string, and
    an acceptance. *)
Definition rejectedWithTxid : BroadcastResult :=
  {| br_txid := Some "0xabc";
     br_error := Some "transaction rejected";
     br_reason := Some "BadNonce" |}.

Definition emptyResult : BroadcastResult :=
  {| br_txid := None; br_error := None; br_reason := None |}.

Definition rejectedEmptyReason : BroadcastResult :=
  {| br_txid := None;
     br_error := Some "transaction rejected";
     br_reason := Some "" |}.

Definition rejectedNoReason : BroadcastResult :=
  {| br_txid := None;
     br_error := Some "transaction rejected";
     br_reason := None |}.

Definition accepted : BroadcastResult :=
  {| br_txid := Some "0xabc"; br_error := None; br_reason := None |}.

(** What [sampleLib] makes of [sponsoredTx] with the key of [sampleEnv]. *)
Definition sampleSponsored : StacksTransaction :=
  {| auth := {| authType := Sponsored;
                spendingCondition := {| signer := "ab"; nonce := 0; fee := 0 |};
                sponsorSpendingCondition :=
                  Some {| signer := "secret"; nonce := 0; fee := 180 |} |};
     payload := "transfer" |}.

(** The levels of the log calls of a trace, in order. *)
Definition logLevelOf (e : Effect) : option LogLevel :=
  match e with
  | CallLog level _ _ _ => Some level
  | _ => None
  end.

Definition logLevels (tr : list Effect) : list LogLevel := omap logLevelOf tr.

(** A request of the signer ["cd"], decoded from ["06"] by [twoSignerLib]. *)
Definition otherTx : StacksTransaction :=
  {| auth := {| authType := Sponsored;
                spendingCondition := {| signer := "cd"; nonce := 0; fee := 0 |};
                sponsorSpendingCondition := None |};
     payload := "transfer" |}.

Definition twoSignerLib : StacksLib :=
  {| deserializeTransaction hex :=
       if String.eqb hex "06" then inr otherTx
       else deserializeTransaction (sampleLib (inr accepted)) hex;
     sponsorTransaction := sponsorTransaction (sampleLib (inr accepted));
     broadcastTransaction := broadcastTransaction (sampleLib (inr accepted)) |}.

Definition mainnetEnv : Env :=
  {| STACKS_NETWORK := "mainnet"; SPONSOR_PRIVATE_KEY := Some "secret" |}.

(** [scripts/test-relay.ts]: the hex string the script makes of the
    serialized transaction, [Buffer.from(transaction.serialize())
    .toString("hex")], and the request it posts,
    [{ method: "POST", body: JSON.stringify({ transaction: txHex }) }] to
    [/relay]. *)
Definition scriptTxHex (serialized : string) : string := toHex serialized.

Definition scriptRequest (serialized : string) : Request :=
  relayPost (inr (JObject [("transaction", JString (scriptTxHex serialized))])).

(** A request as it arrives at the worker: the time, what the library
    functions do while it is handled, the request, the configuration and the
    request id. *)
Record Arrival : Type := {
  arrivesAt : Z;
  arrivalLib : StacksLib;
  arrivalRequest : Request;
  arrivalEnv : Env;
  arrivalId : string
}.

(** The requests handled one after the other, with the outcome of each. *)
Fixpoint serve (arrivals : list Arrival) (w : World)
    : list (Thrown + Response) * World :=
  match arrivals with
  | [] => ([], w)
  | a :: rest =>
      let '(r, w1) :=
        fetch (arrivalLib a) (arrivalRequest a) (arrivalEnv a) (arrivalId a)
          (setClock (arrivesAt a) w) in
      let '(rs, w2) := serve rest w1 in
      (r :: rs, w2)
  end.

(** A [POST /relay] whose transaction decodes, under the library behaviour
    of its arrival, to a sponsored transaction of the sender with the key
    [address]. *)
Definition validFrom (address : string) (a : Arrival) : Prop :=
  exists body s tx,
    arrivalRequest a = relayPost (inr body)
    /\ get_transaction body = inr (JString s) /\ s <> ""
    /\ deserializeTransaction (arrivalLib a) (txHexOf s) = inr tx
    /\ authType (auth tx) = Sponsored
    /\ senderHexOf tx = address.

(** Eleven requests of the signer ["ab"] in one window.  They differ in
    their ids and in what happens to them after the limiter: accepted,
    broadcast throwing, rejected by the network, no credential. *)
Definition sampleArrival (t : Z) (id : string)
    (broadcast : Thrown + BroadcastResult) (env : Env) : Arrival :=
  {| arrivesAt := t; arrivalLib := sampleLib broadcast;
     arrivalRequest := relayPost (inr (bodyWith (JString "0x05")));
     arrivalEnv := env; arrivalId := id |}.

Definition sampleArrivals : list Arrival :=
  [ sampleArrival 0 "r0" (inr accepted) sampleEnv;
    sampleArrival 1 "r1" (inr rejectedWithTxid) sampleEnv;
    sampleArrival 2 "r2" (inl NonError) sampleEnv;
    sampleArrival 3 "r3" (inr accepted) unconfiguredEnv;
    sampleArrival 4 "r4" (inr rejectedNoReason) sampleEnv;
    sampleArrival 5 "r5" (inr emptyResult) sampleEnv;
    sampleArrival 6 "r6" (inl (ErrorObject "timeout")) mainnetEnv;
    sampleArrival 7 "r7" (inr accepted) sampleEnv;
    sampleArrival 8 "r8" (inr rejectedEmptyReason) sampleEnv;
    sampleArrival 9 "r9" (inr accepted) sampleEnv;
    sampleArrival 60000 "r10" (inr accepted) sampleEnv ].

Definition is429 (r : Thrown + Response) : bool :=
  match r with
  | inr resp => status resp =? 429
  | inl _ => false
  end.

(** * The rate limiter: one call *)

(** The outcome of a call on the entry of the caller: admitted or not, and
    the entry afterwards. *)
Definition limiterStep (now : Z) (entry : option RateLimitEntry)
    : bool * RateLimitEntry :=
  match entry with
  | None => (true, {| count := 1; resetAt := now + RATE_WINDOW_MS |})
  | Some e =>
      if now >? resetAt e then
        (true, {| count := 1; resetAt := now + RATE_WINDOW_MS |})
      else if count e >=? RATE_LIMIT then (false, e)
      else (true, {| count := count e + 1; resetAt := resetAt e |})
  end.

Lemma checkRateLimit_run address w :
  let r := limiterStep (clock w) (rateLimitMap w !! address) in
  checkRateLimit address w =
    (inr (fst r),
     record CallDateNow
       (setRateLimitMap (<[address := snd r]> (rateLimitMap w)) w)).
Proof.
  unfold checkRateLimit, limiterStep, bind, Date_now, mapGet, mapSet, ret.
  cbn. destruct (rateLimitMap w !! address) as [e|] eqn:He; cbn.
  - destruct (clock w >? resetAt e); cbn; [reflexivity|].
    destruct (count e >=? RATE_LIMIT); cbn; [|reflexivity].
    unfold setRateLimitMap, record; cbn. rewrite insert_id by done.
    reflexivity.
  - reflexivity.
Qed.

Lemma checkRateLimit_result address w :
  fst (checkRateLimit address w)
  = inr (fst (limiterStep (clock w) (rateLimitMap w !! address))).
Proof. by rewrite checkRateLimit_run. Qed.

Lemma checkRateLimit_map address w :
  rateLimitMap (snd (checkRateLimit address w))
  = <[address := snd (limiterStep (clock w) (rateLimitMap w !! address))]>
      (rateLimitMap w).
Proof. by rewrite checkRateLimit_run. Qed.

Lemma limiterStep_in_window t c r :
  t <= r -> c <= RATE_LIMIT ->
  limiterStep t (Some {| count := c; resetAt := r |})
  = (c <? RATE_LIMIT, {| count := Z.min RATE_LIMIT (c + 1); resetAt := r |}).
Proof.
  unfold limiterStep, RATE_LIMIT. cbn [count resetAt]. intros Ht Hc.
  destruct (Z.gtb_spec t r) as [?|_]; [lia|].
  destruct (Z.geb_spec c 10), (Z.ltb_spec c 10); try lia.
  - do 2 f_equal. lia.
  - do 2 f_equal. lia.
Qed.

(** Calls inside the window of an entry: the [i]-th of them is admitted
    exactly when the count it finds is below the limit, and the count stops
    at the limit. *)
Lemma admissions_in_window address times : forall w c r,
  rateLimitMap w !! address = Some {| count := c; resetAt := r |} ->
  1 <= c <= RATE_LIMIT ->
  Forall (fun t => t <= r) times ->
  fst (admissions address times w)
  = map (fun i => inr (c + Z.of_nat i <? RATE_LIMIT)) (seq 0 (length times))
  /\ rateLimitMap (snd (admissions address times w)) !! address
     = Some {| count := Z.min RATE_LIMIT (c + Z.of_nat (length times));
               resetAt := r |}.
Proof.
  induction times as [|t times IH]; intros w c r Hw Hc Hts.
  - cbn. split; [reflexivity|]. rewrite Hw. do 2 f_equal. lia.
  - apply Forall_cons in Hts as [Ht Hts].
    cbn [admissions]. rewrite checkRateLimit_run. cbn zeta.
    cbn [clock setClock rateLimitMap]. rewrite Hw.
    rewrite limiterStep_in_window by lia. cbn [fst snd].
    set (w1 := record _ _).
    specialize (IH w1 (Z.min RATE_LIMIT (c + 1)) r).
    destruct (admissions address times w1) as [rs w2].
    cbn [fst snd] in *.
    destruct IH as [IH1 IH2];
      [subst w1; cbn; by rewrite lookup_insert_eq | lia | done |].
    split.
    + cbn [length seq map]. f_equal.
      { by rewrite Z.add_0_r. }
      rewrite <- seq_shift, map_map, IH1.
      apply map_ext. intros i. f_equal. unfold RATE_LIMIT in *.
      destruct (Z.ltb_spec (Z.min 10 (c + 1) + Z.of_nat i) 10),
               (Z.ltb_spec (c + Z.of_nat (S i)) 10); lia.
    + rewrite IH2. do 2 f_equal. cbn [length]. unfold RATE_LIMIT in *. lia.
Qed.

(** * The handler, path by path *)

Arguments checkRateLimit : simpl never.
Arguments txHexOf : simpl never.

Ltac relay_run :=
  unfold fetch, relay, bind, tryCatch, attempt, call, logs, lift, ret, throw;
  cbn.

Ltac world_eq :=
  unfold record, extend, afterLimiter, setRateLimitMap, senderHexOf,
    sponsorKey, logReceived,
    logUnexpected, logDeserializeFailed, logNotSponsored, logRateLimited,
    logNoKey, logSponsorFailed, logBroadcastFailed, logRejected, logSuccess;
  cbn; rewrite <- ?app_assoc; reflexivity.

Lemma truthy_string s : truthy (JString s) = true <-> s <> "".
Proof.
  cbn. rewrite negb_true_iff. split.
  - intros H ->. discriminate.
  - intros H. destruct (String.eqb_spec s ""); done.
Qed.

(** [request.json()] throws. *)
Lemma fetch_json_throws lib e env id w :
  fetch lib (relayPost (inl e)) env id w
  = (inr (jsonResponse 500
            (errorBody "Internal server error" (Some (errorMessage e)))),
     extend [logReceived id; logUnexpected id e] w).
Proof. relay_run. f_equal. world_eq. Qed.

(** Reading [body.transaction] throws ([body] is [null]). *)
Lemma fetch_body_throws lib body e env id w :
  get_transaction body = inl e ->
  fetch lib (relayPost (inr body)) env id w
  = (inr (jsonResponse 500
            (errorBody "Internal server error" (Some (errorMessage e)))),
     extend [logReceived id; logUnexpected id e] w).
Proof. intros H. relay_run. rewrite H. f_equal. world_eq. Qed.

(** [body.transaction] is falsy. *)
Lemma fetch_missing lib body v env id w :
  get_transaction body = inr v -> truthy v = false ->
  fetch lib (relayPost (inr body)) env id w
  = (inr (jsonResponse 400 (errorBody "Missing transaction field" None)),
     extend [logReceived id] w).
Proof. intros H1 H2. relay_run. rewrite H1, H2. cbn. f_equal. Qed.

(** [body.transaction] is truthy and not a string: [startsWith] is not a
    function. *)
Lemma fetch_not_string lib body v env id w :
  get_transaction body = inr v -> truthy v = true ->
  (forall s, v <> JString s) ->
  fetch lib (relayPost (inr body)) env id w
  = (inr (jsonResponse 500
            (errorBody "Internal server error"
               (Some "body.transaction.startsWith is not a function"))),
     extend [logReceived id;
             logUnexpected id
               (ErrorObject "body.transaction.startsWith is not a function")]
       w).
Proof.
  intros H1 H2 H3. relay_run. rewrite H1, H2. cbn.
  destruct v; try (f_equal; world_eq). by destruct (H3 s).
Qed.

Section Decoding.
Context (lib : StacksLib) (body : JsValue) (s : string) (env : Env)
  (id : string) (w : World).
Hypothesis Hbody : get_transaction body = inr (JString s).
Hypothesis Hs : s <> "".

Lemma fetch_malformed e :
  deserializeTransaction lib (txHexOf s) = inl e ->
  fetch lib (relayPost (inr body)) env id w
  = (inr (jsonResponse 400
            (errorBody "Invalid transaction"
               (Some "Could not deserialize transaction hex"))),
     extend [logReceived id; CallDeserialize (txHexOf s);
             logDeserializeFailed id e] w).
Proof.
  intros He. apply truthy_string in Hs. relay_run.
  rewrite Hbody. cbn in Hs |- *. rewrite Hs. cbn. rewrite He. cbn.
  f_equal. world_eq.
Qed.

Lemma fetch_not_sponsored tx :
  deserializeTransaction lib (txHexOf s) = inr tx ->
  authType (auth tx) <> Sponsored ->
  fetch lib (relayPost (inr body)) env id w
  = (inr (jsonResponse 400
            (errorBody "Transaction must be sponsored"
               (Some "Build transaction with sponsored: true"))),
     extend [logReceived id; CallDeserialize (txHexOf s);
             logNotSponsored id (authType (auth tx))] w).
Proof.
  intros He Ha. apply truthy_string in Hs. relay_run.
  rewrite Hbody. cbn in Hs |- *. rewrite Hs. cbn. rewrite He. cbn.
  destruct (authType (auth tx)); [|done]. cbn. f_equal. world_eq.
Qed.
End Decoding.

(** The limiter reads the clock and the map, not the trace. *)
Lemma checkRateLimit_frame address w w' :
  rateLimitMap w' = rateLimitMap w -> clock w' = clock w ->
  checkRateLimit address w'
  = (fst (checkRateLimit address w),
     {| rateLimitMap := rateLimitMap (snd (checkRateLimit address w));
        clock := clock w;
        effects := effects w' ++ [CallDateNow] |}).
Proof.
  intros Hm Hc. rewrite !checkRateLimit_run.
  unfold record, setRateLimitMap. cbn. rewrite Hm, Hc. reflexivity.
Qed.

Lemma checkRateLimit_rejects_keeps_map address w :
  fst (checkRateLimit address w) = inr false ->
  rateLimitMap (snd (checkRateLimit address w)) = rateLimitMap w.
Proof.
  rewrite checkRateLimit_run. cbn. intros [= H].
  apply insert_id. unfold limiterStep in *.
  destruct (rateLimitMap w !! address) as [e|]; [|done].
  destruct (clock w >? resetAt e); [done|].
  by destruct (count e >=? RATE_LIMIT).
Qed.

Section Validated.
Context (lib : StacksLib) (body : JsValue) (s : string) (env : Env)
  (id : string) (w : World) (tx : StacksTransaction).
Hypothesis Hbody : get_transaction body = inr (JString s).
Hypothesis Hs : s <> "".
Hypothesis Htx : deserializeTransaction lib (txHexOf s) = inr tx.
Hypothesis Hauth : authType (auth tx) = Sponsored.

Ltac validated_run :=
  let H := fresh in
  pose proof (proj2 (truthy_string s) Hs) as H; relay_run;
  rewrite Hbody; cbn in H |- *; rewrite H; cbn; rewrite Htx; cbn;
  rewrite Hauth; cbn;
  erewrite (checkRateLimit_frame _ w) by reflexivity;
  fold (senderHexOf tx).

Lemma fetch_rate_limited :
  fst (checkRateLimit (senderHexOf tx) w) = inr false ->
  fetch lib (relayPost (inr body)) env id w
  = (inr (jsonResponse 429
            (errorBody "Rate limit exceeded"
               (Some "Maximum 10 requests per minute"))),
     extend [logReceived id; CallDeserialize (txHexOf s); CallDateNow;
             logRateLimited id (senderHexOf tx)] w).
Proof.
  intros Hr. validated_run. rewrite Hr. cbn. f_equal.
  rewrite checkRateLimit_rejects_keeps_map by done. world_eq.
Qed.

Section LimiterAdmits.
Hypothesis Hadm : fst (checkRateLimit (senderHexOf tx) w) = inr true.

Lemma fetch_no_key :
  truthyStr (SPONSOR_PRIVATE_KEY env) = false ->
  fetch lib (relayPost (inr body)) env id w
  = (inr (jsonResponse 500
            (errorBody "Service not configured"
               (Some "Sponsor key missing"))),
     extend [logReceived id; CallDeserialize (txHexOf s); CallDateNow;
             logNoKey id] (afterLimiter (senderHexOf tx) w)).
Proof.
  intros Hk. validated_run. rewrite Hadm. cbn. rewrite Hk. cbn.
  f_equal. world_eq.
Qed.

Section Configured.
Hypothesis Hkey : truthyStr (SPONSOR_PRIVATE_KEY env) = true.

Lemma fetch_sponsor_throws e :
  sponsorTransaction lib tx (sponsorKey env) (getNetwork env) = inl e ->
  fetch lib (relayPost (inr body)) env id w
  = (inr (jsonResponse 500
            (errorBody "Failed to sponsor transaction"
               (Some (errorMessage e)))),
     extend [logReceived id; CallDeserialize (txHexOf s); CallDateNow;
             CallSponsor tx (sponsorKey env) (getNetwork env);
             logSponsorFailed id e] (afterLimiter (senderHexOf tx) w)).
Proof.
  intros He. validated_run. rewrite Hadm. cbn. rewrite Hkey. cbn.
  fold (sponsorKey env). rewrite He. cbn. f_equal. world_eq.
Qed.

Section Sponsored_.
Context (stx : StacksTransaction).
Hypothesis Hstx :
  sponsorTransaction lib tx (sponsorKey env) (getNetwork env) = inr stx.

Lemma fetch_broadcast_throws e :
  broadcastTransaction lib stx (getNetwork env) = inl e ->
  fetch lib (relayPost (inr body)) env id w
  = (inr (jsonResponse 500
            (errorBody "Failed to broadcast transaction"
               (Some (errorMessage e)))),
     extend [logReceived id; CallDeserialize (txHexOf s); CallDateNow;
             CallSponsor tx (sponsorKey env) (getNetwork env);
             CallBroadcast stx (getNetwork env);
             logBroadcastFailed id e]
       (afterLimiter (senderHexOf tx) w)).
Proof.
  intros He. validated_run. rewrite Hadm. cbn. rewrite Hkey. cbn.
  fold (sponsorKey env). rewrite Hstx. cbn. rewrite He. cbn.
  f_equal. world_eq.
Qed.

Lemma fetch_broadcast_rejected r :
  broadcastTransaction lib stx (getNetwork env) = inr r ->
  truthyStr (br_error r) = true ->
  fetch lib (relayPost (inr body)) env id w
  = (inr (jsonResponse 400
            (errorBody "Broadcast rejected"
               (if truthyStr (br_reason r) then br_reason r
                else br_error r))),
     extend [logReceived id; CallDeserialize (txHexOf s); CallDateNow;
             CallSponsor tx (sponsorKey env) (getNetwork env);
             CallBroadcast stx (getNetwork env);
             logRejected id r]
       (afterLimiter (senderHexOf tx) w)).
Proof.
  intros He Hr. validated_run. rewrite Hadm. cbn. rewrite Hkey. cbn.
  fold (sponsorKey env). rewrite Hstx. cbn. rewrite He. cbn.
  rewrite Hr. cbn. f_equal. world_eq.
Qed.

Lemma fetch_success r :
  broadcastTransaction lib stx (getNetwork env) = inr r ->
  truthyStr (br_error r) = false ->
  fetch lib (relayPost (inr body)) env id w
  = (inr (jsonResponse 200
            {| txid := br_txid r; error := None; details := None |}),
     extend [logReceived id; CallDeserialize (txHexOf s); CallDateNow;
             CallSponsor tx (sponsorKey env) (getNetwork env);
             CallBroadcast stx (getNetwork env);
             logSuccess id (senderHexOf tx) r]
       (afterLimiter (senderHexOf tx) w)).
Proof.
  intros He Hr. validated_run. rewrite Hadm. cbn. rewrite Hkey. cbn.
  fold (sponsorKey env). rewrite Hstx. cbn. rewrite He. cbn.
  rewrite Hr. cbn. f_equal. world_eq.
Qed.
End Sponsored_.
End Configured.
End LimiterAdmits.
End Validated.

(** Every path is a run of the handler. *)
Lemma RelayPath_sound lib env id w j resp tr w0 :
  RelayPath lib env id w j resp tr w0 ->
  fetch lib (relayPost j) env id w = (inr resp, extend tr w0).
Proof.
  destruct 1; eauto using fetch_json_throws, fetch_body_throws, fetch_missing,
    fetch_not_string, fetch_malformed, fetch_not_sponsored, fetch_rate_limited,
    fetch_no_key, fetch_sponsor_throws, fetch_broadcast_throws,
    fetch_broadcast_rejected, fetch_success.
Qed.

Lemma limiter_returns address w :
  { b | fst (checkRateLimit address w) = inr b }.
Proof. rewrite checkRateLimit_result. eauto. Qed.

Lemma string_or_not v : { s | v = JString s } + { forall s, v <> JString s }.
Proof. destruct v; try (right; discriminate). left; eauto. Qed.

(** Every run of the handler follows one of the paths: the handler always
    returns a response. *)
Lemma RelayPath_complete lib env id w j :
  exists resp tr w0, RelayPath lib env id w j resp tr w0.
Proof.
  destruct j as [e|body]; [eauto using RelayPath|].
  destruct (get_transaction body) as [e|v] eqn:Hv; [eauto using RelayPath|].
  destruct (truthy v) eqn:Ht; [|eauto using RelayPath].
  destruct (string_or_not v) as [[s ->]|Hns]; [|eauto using RelayPath].
  apply truthy_string in Ht.
  destruct (deserializeTransaction lib (txHexOf s)) as [e|tx] eqn:Htx;
    [eauto using RelayPath|].
  destruct (authType (auth tx)) eqn:Hauth.
  { do 3 eexists. eapply PathNotSponsored; eauto. congruence. }
  destruct (limiter_returns (senderHexOf tx) w) as [[|] Hl];
    [|eauto using RelayPath].
  destruct (truthyStr (SPONSOR_PRIVATE_KEY env)) eqn:Hk;
    [|eauto using RelayPath].
  destruct (sponsorTransaction lib tx (sponsorKey env) (getNetwork env))
    as [e|stx] eqn:Hstx; [eauto using RelayPath|].
  destruct (broadcastTransaction lib stx (getNetwork env)) as [e|r] eqn:Hr;
    [eauto using RelayPath|].
  destruct (truthyStr (br_error r)) eqn:He; eauto 10 using RelayPath.
Qed.

Lemma fetch_path lib env id w j :
  exists resp tr w0,
    fetch lib (relayPost j) env id w = (inr resp, extend tr w0)
    /\ RelayPath lib env id w j resp tr w0.
Proof.
  destruct (RelayPath_complete lib env id w j) as (resp & tr & w0 & H).
  exists resp, tr, w0. split; [by apply RelayPath_sound | done].
Qed.

(** * The handler on sample requests *)

Example relay_success :
  fetch (sampleLib (inr accepted)) (relayPost (inr (bodyWith (JString "05"))))
    sampleEnv "id" initialWorld
  = (inr (jsonResponse 200
            {| txid := Some "0xabc"; error := None; details := None |}),
     {| rateLimitMap := {[ "6162" := {| count := 1; resetAt := 60000 |} ]};
        clock := 0;
        effects :=
          [logReceived "id"; CallDeserialize "05"; CallDateNow;
           CallSponsor sponsoredTx "secret" STACKS_TESTNET;
           CallBroadcast sampleSponsored STACKS_TESTNET;
           logSuccess "id" "6162" accepted] |}).
Proof. reflexivity. Qed.

Example relay_empty_object :
  fst (fetch (sampleLib (inr accepted)) (relayPost (inr (JObject [])))
         sampleEnv "id" initialWorld)
  = inr (jsonResponse 400 (errorBody "Missing transaction field" None)).
Proof. reflexivity. Qed.

Example relay_null_body :
  fst (fetch (sampleLib (inr accepted)) (relayPost (inr JNull))
         sampleEnv "id" initialWorld)
  = inr (jsonResponse 500
           (errorBody "Internal server error"
              (Some "Cannot read properties of null (reading 'transaction')"))).
Proof. reflexivity. Qed.

Example relay_standard_transaction :
  fst (fetch (sampleLib (inr accepted))
         (relayPost (inr (bodyWith (JString "0x04")))) sampleEnv "id"
         initialWorld)
  = inr (jsonResponse 400
           (errorBody "Transaction must be sponsored"
              (Some "Build transaction with sponsored: true"))).
Proof. reflexivity. Qed.

Example relay_eleventh_request :
  fst (fetch (sampleLib (inr accepted))
         (relayPost (inr (bodyWith (JString "05")))) sampleEnv "id"
         (setClock 59999
            (run (map (fun t =>
                         (t, Handle (sampleLib (inr accepted))
                               (relayPost (inr (bodyWith (JString "05"))))
                               sampleEnv "id"))
                    [0; 1; 2; 3; 4; 5; 6; 7; 8; 9])
               initialWorld)))
  = inr (jsonResponse 429
           (errorBody "Rate limit exceeded"
              (Some "Maximum 10 requests per minute"))).
Proof. reflexivity. Qed.

Example relay_sponsor_throws :
  fst (fetch {| deserializeTransaction :=
                  deserializeTransaction (sampleLib (inr accepted));
                sponsorTransaction _ _ _ := inl (ErrorObject "fee estimate");
                broadcastTransaction _ _ := inr accepted |}
         (relayPost (inr (bodyWith (JString "05")))) sampleEnv "id"
         initialWorld)
  = inr (jsonResponse 500
           (errorBody "Failed to sponsor transaction" (Some "fee estimate"))).
Proof. reflexivity. Qed.

Example relay_broadcast_throws :
  fst (fetch (sampleLib (inl NonError))
         (relayPost (inr (bodyWith (JString "05")))) sampleEnv "id"
         initialWorld)
  = inr (jsonResponse 500
           (errorBody "Failed to broadcast transaction"
              (Some "Unknown error"))).
Proof. reflexivity. Qed.

Example health_check :
  fetch (sampleLib (inr accepted))
    {| method := "GET"; pathname := "/health"; json := inl NonError |}
    unconfiguredEnv "id" (exhaustedWorld 0)
  = (inr {| status := 200;
            headers := ("Content-Type", "application/json") :: corsHeaders;
            body := BodyHealth "ok" "testnet" "0.1.0" |},
     exhaustedWorld 0).
Proof. reflexivity. Qed.

Example options_preflight :
  fetch (sampleLib (inr accepted))
    {| method := "OPTIONS"; pathname := "/relay"; json := inl NonError |}
    sampleEnv "id" initialWorld
  = (inr {| status := 200; headers := corsHeaders; body := BodyNull |},
     initialWorld).
Proof. reflexivity. Qed.

(** * The rate limiter: windows *)

(** C2, as the code has it: the limiter starts a new window when the sender
    has no entry or the clock is strictly past [resetAt] (count 1, [resetAt]
    60000 ms ahead, admitted); inside the window it admits and increments
    while the count is below 10 and rejects, leaving the map as it is, from
    10 on.  So of the calls of a sender from the start of a window up to and
    including its [resetAt], exactly the first 10 are admitted and the 11th
    and later ones are rejected, and a call after [resetAt] is admitted
    again. *)
Theorem checkRateLimit_fixed_window (address : string) (w : World) :
  ((rateLimitMap w !! address = None
    \/ exists e, rateLimitMap w !! address = Some e /\ clock w > resetAt e) ->
   fst (checkRateLimit address w) = inr true
   /\ rateLimitMap (snd (checkRateLimit address w))
      = <[address := {| count := 1; resetAt := clock w + 60000 |}]>
          (rateLimitMap w))
  /\ (forall e,
        rateLimitMap w !! address = Some e -> clock w <= resetAt e ->
        count e < 10 ->
        fst (checkRateLimit address w) = inr true
        /\ rateLimitMap (snd (checkRateLimit address w))
           = <[address := {| count := count e + 1; resetAt := resetAt e |}]>
               (rateLimitMap w))
  /\ (forall e,
        rateLimitMap w !! address = Some e -> clock w <= resetAt e ->
        10 <= count e ->
        fst (checkRateLimit address w) = inr false
        /\ rateLimitMap (snd (checkRateLimit address w)) = rateLimitMap w)
  /\ (forall t0 times,
        (rateLimitMap w !! address = None
         \/ exists e, rateLimitMap w !! address = Some e /\ t0 > resetAt e) ->
        Forall (fun t => t <= t0 + 60000) times ->
        fst (admissions address (t0 :: times) w)
        = map (fun i => inr (Z.of_nat i <? 10)) (seq 0 (S (length times)))
        /\ forall t',
             t' > t0 + 60000 ->
             fst (checkRateLimit address
                    (setClock t' (snd (admissions address (t0 :: times) w))))
             = inr true).
Proof.
  assert (Hfresh : forall t,
    (rateLimitMap w !! address = None
     \/ exists e, rateLimitMap w !! address = Some e /\ t > resetAt e) ->
    limiterStep t (rateLimitMap w !! address)
    = (true, {| count := 1; resetAt := t + 60000 |})).
  { intros t [->|(e & -> & Ht)]; [reflexivity|]. unfold limiterStep.
    destruct (Z.gtb_spec t (resetAt e)); [reflexivity | lia]. }
  repeat split.
  - by rewrite checkRateLimit_result, (Hfresh (clock w)).
  - by rewrite checkRateLimit_map, (Hfresh (clock w)).
  - rewrite checkRateLimit_result, H. unfold limiterStep, RATE_LIMIT.
    destruct (Z.gtb_spec (clock w) (resetAt e)); [lia|].
    destruct (Z.geb_spec (count e) 10); [lia | done].
  - rewrite checkRateLimit_map, H. unfold limiterStep, RATE_LIMIT.
    destruct (Z.gtb_spec (clock w) (resetAt e)); [lia|].
    destruct (Z.geb_spec (count e) 10); [lia | done].
  - rewrite checkRateLimit_result, H. unfold limiterStep, RATE_LIMIT.
    destruct (Z.gtb_spec (clock w) (resetAt e)); [lia|].
    destruct (Z.geb_spec (count e) 10); [done | lia].
  - apply checkRateLimit_rejects_keeps_map.
    rewrite checkRateLimit_result, H. unfold limiterStep, RATE_LIMIT.
    destruct (Z.gtb_spec (clock w) (resetAt e)); [lia|].
    destruct (Z.geb_spec (count e) 10); [done | lia].
  - cbn [admissions]. rewrite checkRateLimit_run. cbn zeta.
    cbn [clock setClock rateLimitMap]. rewrite Hfresh by done. cbn [fst snd].
    set (w1 := record _ _).
    destruct (admissions_in_window address times w1 1 (t0 + 60000))
      as [Hrs _]; [subst w1; cbn; by rewrite lookup_insert_eq
                  | unfold RATE_LIMIT; lia | done |].
    destruct (admissions address times w1) as [rs w2]. cbn [fst] in *.
    cbn [length seq map]. f_equal. rewrite <- seq_shift, map_map, Hrs.
    apply map_ext. intros i. unfold RATE_LIMIT. do 2 f_equal. lia.
  - intros t' Ht'. cbn [admissions].
    rewrite (checkRateLimit_run address (setClock t0 w)). cbn zeta.
    cbn [clock setClock rateLimitMap]. rewrite Hfresh by done. cbn [fst snd].
    set (w1 := record _ _).
    destruct (admissions_in_window address times w1 1 (t0 + 60000))
      as [_ Hm]; [subst w1; cbn; by rewrite lookup_insert_eq
                 | unfold RATE_LIMIT; lia | done |].
    destruct (admissions address times w1) as [rs w2]. cbn [snd] in *.
    rewrite checkRateLimit_result. cbn [clock setClock rateLimitMap].
    rewrite Hm. unfold limiterStep. cbn [resetAt].
    destruct (Z.gtb_spec t' (t0 + 60000)); [done | lia].
Qed.

Lemma checkRateLimit_fixed_window_witness :
  (fst (checkRateLimit (toHex "ab") initialWorld) = inr true
   /\ rateLimitMap (snd (checkRateLimit (toHex "ab") initialWorld))
      = <[toHex "ab" := {| count := 1; resetAt := 0 + 60000 |}]> ∅)
  /\ (fst (checkRateLimit (toHex "ab") busyWorld) = inr true
      /\ rateLimitMap (snd (checkRateLimit (toHex "ab") busyWorld))
         = <[toHex "ab" := {| count := 3 + 1; resetAt := 60000 |}]>
             (rateLimitMap busyWorld))
  /\ (fst (checkRateLimit (toHex "ab") (exhaustedWorld 2000)) = inr false
      /\ rateLimitMap (snd (checkRateLimit (toHex "ab") (exhaustedWorld 2000)))
         = rateLimitMap (exhaustedWorld 2000))
  /\ (fst (admissions (toHex "ab") [0; 1; 2; 3; 4; 5; 6; 7; 8; 9; 60000]
             initialWorld)
      = [inr true; inr true; inr true; inr true; inr true; inr true; inr true;
         inr true; inr true; inr true; inr false]
      /\ fst (checkRateLimit (toHex "ab")
                (setClock 60001
                   (snd (admissions (toHex "ab")
                           [0; 1; 2; 3; 4; 5; 6; 7; 8; 9; 60000]
                           initialWorld))))
         = inr true).
Proof.
  split; [|split; [|split]].
  - apply (checkRateLimit_fixed_window (toHex "ab") initialWorld).
    left. reflexivity.
  - destruct (checkRateLimit_fixed_window (toHex "ab") busyWorld)
      as (_ & H & _).
    apply (H {| count := 3; resetAt := 60000 |}).
    + reflexivity.
    + cbn. lia.
    + cbn. lia.
  - destruct (checkRateLimit_fixed_window (toHex "ab") (exhaustedWorld 2000))
      as (_ & _ & H & _).
    apply (H {| count := 10; resetAt := 60000 |}).
    + reflexivity.
    + cbn. lia.
    + cbn. lia.
  - destruct (checkRateLimit_fixed_window (toHex "ab") initialWorld)
      as (_ & _ & _ & H).
    destruct (H 0 [1; 2; 3; 4; 5; 6; 7; 8; 9; 60000]) as [H1 H2].
    + left. reflexivity.
    + repeat constructor; lia.
    + split; [exact H1 | apply H2; lia].
Defined.

(** C2, as stated, fails where the clock equals [resetAt]: the code compares
    with [>], so that call is still inside the window and, the window being
    used up, is rejected. *)
Lemma checkRateLimit_at_resetAt_rejects :
  rateLimitMap (exhaustedWorld 60000) !! toHex "ab"
  = Some {| count := 10; resetAt := 60000 |}
  /\ clock (exhaustedWorld 60000) >= 60000
  /\ fst (checkRateLimit (toHex "ab") (exhaustedWorld 60000)) = inr false
  /\ rateLimitMap (snd (checkRateLimit (toHex "ab") (exhaustedWorld 60000)))
     !! toHex "ab"
     = Some {| count := 10; resetAt := 60000 |}.
Proof.
  split; [reflexivity|]. split; [cbn; lia|].
  split; [reflexivity|]. reflexivity.
Qed.

(** * The rate limiter: the bound on the counters *)

Lemma limiterStep_bounded now o :
  (forall e, o = Some e -> 1 <= count e <= RATE_LIMIT) ->
  1 <= count (snd (limiterStep now o)) <= RATE_LIMIT.
Proof.
  unfold limiterStep, RATE_LIMIT. intros H.
  destruct o as [e|]; cbn; [|lia].
  specialize (H e eq_refl).
  destruct (now >? resetAt e); cbn; [lia|].
  destruct (Z.geb_spec (count e) 10); cbn; lia.
Qed.

Lemma checkRateLimit_bounded address w :
  countsBounded (rateLimitMap w) ->
  countsBounded (rateLimitMap (snd (checkRateLimit address w))).
Proof.
  intros H k e. rewrite checkRateLimit_map.
  destruct (decide (address = k)) as [->|Hne].
  - rewrite lookup_insert_eq. intros [= <-].
    apply limiterStep_bounded. intros e'. apply H.
  - rewrite lookup_insert_ne by done. apply H.
Qed.

Lemma RelayPath_world lib env id w j resp tr w0 :
  RelayPath lib env id w j resp tr w0 ->
  w0 = w \/ exists address, w0 = afterLimiter address w.
Proof. destruct 1; eauto. Qed.

Lemma relayPost_eta request :
  String.eqb (pathname request) "/relay" && String.eqb (method request) "POST"
  = true ->
  request = relayPost (json request).
Proof.
  intros [H1 H2]%andb_true_iff.
  apply String.eqb_eq in H1, H2. destruct request; cbn in *. by subst.
Qed.

Lemma fetch_bounded lib request env id w :
  countsBounded (rateLimitMap w) ->
  countsBounded (rateLimitMap (snd (fetch lib request env id w))).
Proof.
  intros H.
  destruct (String.eqb (pathname request) "/relay"
            && String.eqb (method request) "POST") eqn:Hr.
  - rewrite (relayPost_eta request Hr).
    destruct (fetch_path lib env id w (json request))
      as (resp & tr & w0 & -> & Hp).
    apply RelayPath_world in Hp as [->|[address ->]]; cbn; [done|].
    by apply checkRateLimit_bounded.
  - unfold fetch. rewrite Hr.
    destruct (String.eqb (method request) "OPTIONS"); [done|].
    destruct (String.eqb (pathname request) "/health"); done.
Qed.

Lemma run_bounded steps : forall w,
  countsBounded (rateLimitMap w) ->
  countsBounded (rateLimitMap (run steps w)).
Proof.
  unfold run. induction steps as [|[t st] steps IH]; intros w H; [done|].
  cbn [fold_left]. apply IH. destruct st as [address|lib request env id]; cbn.
  - by apply checkRateLimit_bounded.
  - by apply fetch_bounded.
Qed.

(** C8: whatever calls of the limiter and whatever requests a fresh instance
    has served, at whatever times, every entry of [rateLimitMap] has a count
    between 1 and 10. *)
Theorem counts_stay_within_capacity (steps : list (Z * Step)) (k : string)
    (e : RateLimitEntry) :
  rateLimitMap (run steps initialWorld) !! k = Some e ->
  1 <= count e <= 10.
Proof.
  apply (run_bounded steps initialWorld). intros k' e'. cbn.
  by rewrite lookup_empty.
Qed.

Lemma counts_stay_within_capacity_witness :
  rateLimitMap (run sampleSteps initialWorld) !! toHex "ab"
  = Some {| count := 10; resetAt := 60000 |}
  /\ 1 <= 10 <= 10.
Proof.
  split; [reflexivity|].
  apply (counts_stay_within_capacity sampleSteps (toHex "ab")
           {| count := 10; resetAt := 60000 |}).
  reflexivity.
Defined.

(** * Requests that never reach the decoder *)

(** C9: a [transaction] that is the empty string is answered like a missing
    one, 400 "Missing transaction field", and the decoder is not called. *)
Theorem empty_transaction_is_missing lib body env id w :
  get_transaction body = inr (JString "") ->
  fetch lib (relayPost (inr body)) env id w
  = (inr (jsonResponse 400 (errorBody "Missing transaction field" None)),
     extend [logReceived id] w).
Proof. intros H. by apply (fetch_missing lib body (JString "")). Qed.

Lemma empty_transaction_is_missing_witness :
  fetch (sampleLib (inl NonError)) (relayPost (inr (bodyWith (JString ""))))
    sampleEnv "id" initialWorld
  = (inr (jsonResponse 400 (errorBody "Missing transaction field" None)),
     extend [logReceived "id"] initialWorld).
Proof.
  apply (empty_transaction_is_missing (sampleLib (inl NonError))
           (bodyWith (JString ""))).
  reflexivity.
Defined.

(** C10: when [request.json()] throws, the outer [catch] answers 500
    "Internal server error" with the message of the thrown error as
    [details]; nothing but the two log calls happens. *)
Theorem invalid_json_is_internal_error lib e env id w :
  fetch lib (relayPost (inl e)) env id w
  = (inr (jsonResponse 500
            (errorBody "Internal server error" (Some (errorMessage e)))),
     extend [logReceived id; logUnexpected id e] w)
  /\ status (jsonResponse 500
               (errorBody "Internal server error" (Some (errorMessage e))))
     = 500
  /\ forall message, e = ErrorObject message -> errorMessage e = message.
Proof.
  split; [apply fetch_json_throws|]. split; [reflexivity|]. by intros m ->.
Qed.

Lemma invalid_json_is_internal_error_witness :
  fetch (sampleLib (inl NonError))
    (relayPost (inl (ErrorObject "Unexpected end of JSON input")))
    sampleEnv "id" initialWorld
  = (inr (jsonResponse 500
            (errorBody "Internal server error"
               (Some "Unexpected end of JSON input"))),
     extend [logReceived "id";
             logUnexpected "id" (ErrorObject "Unexpected end of JSON input")]
       initialWorld).
Proof.
  exact (proj1 (invalid_json_is_internal_error (sampleLib (inl NonError))
                  (ErrorObject "Unexpected end of JSON input") sampleEnv "id"
                  initialWorld)).
Defined.

(** * The broadcast result *)

Lemma truthyStr_true o : truthyStr o = true <-> exists s, o = Some s /\ s <> "".
Proof.
  destruct o as [s|]; cbn.
  - rewrite negb_true_iff. split.
    + intros H. exists s. split; [done|]. intros ->. discriminate.
    + intros (s' & [= <-] & H). by destruct (String.eqb_spec s "").
  - split; [done | by intros (s & ? & _)].
Qed.

Lemma truthyStr_false o : truthyStr o = false <-> o = None \/ o = Some "".
Proof.
  destruct o as [s|]; cbn.
  - rewrite negb_false_iff. split.
    + intros H%String.eqb_eq. right. by subst.
    + intros [?|[= ->]]; done.
  - split; [by left | done].
Qed.

(** C1: the code at a broadcast result that has neither a [txid] nor an
    [error].  The handler answers 200 with an empty object and logs
    "Transaction sponsored and broadcast" with no txid, where the claim asks
    for the 500 of an internal error and the handler itself reads the txid
    as [broadcastResult.txid!]. *)
Theorem empty_broadcast_result_is_answered_200 :
  br_txid emptyResult = None
  /\ br_error emptyResult = None
  /\ fetch (sampleLib (inr emptyResult))
       (relayPost (inr (bodyWith (JString "05")))) sampleEnv "id" initialWorld
     = (inr (jsonResponse 200
               {| txid := None; error := None; details := None |}),
        {| rateLimitMap := {[ "6162" := {| count := 1; resetAt := 60000 |} ]};
           clock := 0;
           effects :=
             [logReceived "id"; CallDeserialize "05"; CallDateNow;
              CallSponsor sponsoredTx "secret" STACKS_TESTNET;
              CallBroadcast sampleSponsored STACKS_TESTNET;
              CallLog Info "x402-relay" "Transaction sponsored and broadcast"
                [("request_id", LogString "id"); ("txid", LogOptional None);
                 ("sender", LogString "6162")]] |}).
Proof. repeat split. Qed.

(** C6, as the code has it: a rejection (a result with a non-empty [error])
    is answered 400 with [details] the [reason] when that is there and not
    empty, and the [error] otherwise; a result that is just a [txid] is
    answered 200 with that [txid] and without [error]. *)
Theorem broadcast_response_details lib body s env id w tx stx r :
  get_transaction body = inr (JString s) -> s <> "" ->
  deserializeTransaction lib (txHexOf s) = inr tx ->
  authType (auth tx) = Sponsored ->
  fst (checkRateLimit (senderHexOf tx) w) = inr true ->
  truthyStr (SPONSOR_PRIVATE_KEY env) = true ->
  sponsorTransaction lib tx (sponsorKey env) (getNetwork env) = inr stx ->
  broadcastTransaction lib stx (getNetwork env) = inr r ->
  (forall e reason,
     br_error r = Some e -> e <> "" ->
     br_reason r = Some reason -> reason <> "" ->
     fst (fetch lib (relayPost (inr body)) env id w)
     = inr (jsonResponse 400 (errorBody "Broadcast rejected" (Some reason))))
  /\ (forall e,
        br_error r = Some e -> e <> "" ->
        br_reason r = None \/ br_reason r = Some "" ->
        fst (fetch lib (relayPost (inr body)) env id w)
        = inr (jsonResponse 400 (errorBody "Broadcast rejected" (Some e))))
  /\ (forall t,
        r = {| br_txid := Some t; br_error := None; br_reason := None |} ->
        fst (fetch lib (relayPost (inr body)) env id w)
        = inr (jsonResponse 200
                 {| txid := Some t; error := None; details := None |})).
Proof.
  intros Hbody Hs Htx Hauth Hadm Hkey Hstx Hr.
  assert (Hrej : forall e, br_error r = Some e -> e <> "" ->
    fst (fetch lib (relayPost (inr body)) env id w)
    = inr (jsonResponse 400
             (errorBody "Broadcast rejected"
                (if truthyStr (br_reason r) then br_reason r
                 else br_error r)))).
  { intros e He Hne.
    assert (truthyStr (br_error r) = true) as Ht
      by (apply truthyStr_true; eauto).
    by rewrite (fetch_broadcast_rejected lib body s env id w tx Hbody Hs Htx
                  Hauth Hadm Hkey stx Hstx r Hr Ht). }
  repeat split.
  - intros e reason He Hne Hreason Hrne. rewrite (Hrej e He Hne).
    assert (truthyStr (br_reason r) = true) as ->
      by (apply truthyStr_true; eauto).
    by rewrite Hreason.
  - intros e He Hne Hreason%truthyStr_false. rewrite (Hrej e He Hne).
    by rewrite Hreason, He.
  - intros t ->.
    by rewrite (fetch_success lib body s env id w tx Hbody Hs Htx Hauth Hadm
                  Hkey stx Hstx _ Hr eq_refl).
Qed.

Lemma broadcast_response_details_witness :
  fst (fetch (sampleLib (inr rejectedWithTxid))
         (relayPost (inr (bodyWith (JString "05")))) sampleEnv "id"
         initialWorld)
  = inr (jsonResponse 400 (errorBody "Broadcast rejected" (Some "BadNonce")))
  /\ fst (fetch (sampleLib (inr rejectedNoReason))
            (relayPost (inr (bodyWith (JString "05")))) sampleEnv "id"
            initialWorld)
     = inr (jsonResponse 400
              (errorBody "Broadcast rejected" (Some "transaction rejected")))
  /\ fst (fetch (sampleLib (inr accepted))
            (relayPost (inr (bodyWith (JString "05")))) sampleEnv "id"
            initialWorld)
     = inr (jsonResponse 200
              {| txid := Some "0xabc"; error := None; details := None |}).
Proof.
  split; [|split].
  - refine (proj1 (broadcast_response_details
                     (sampleLib (inr rejectedWithTxid))
                     (bodyWith (JString "05")) "05" sampleEnv "id"
                     initialWorld sponsoredTx sampleSponsored rejectedWithTxid
                     eq_refl _ eq_refl eq_refl eq_refl eq_refl eq_refl eq_refl)
              "transaction rejected" "BadNonce" eq_refl _ eq_refl _);
      discriminate.
  - refine (proj1 (proj2 (broadcast_response_details
                            (sampleLib (inr rejectedNoReason))
                            (bodyWith (JString "05")) "05" sampleEnv "id"
                            initialWorld sponsoredTx sampleSponsored
                            rejectedNoReason
                            eq_refl _ eq_refl eq_refl eq_refl eq_refl eq_refl
                            eq_refl))
              "transaction rejected" eq_refl _ (or_introl eq_refl));
      discriminate.
  - refine (proj2 (proj2 (broadcast_response_details
                            (sampleLib (inr accepted))
                            (bodyWith (JString "05")) "05" sampleEnv "id"
                            initialWorld sponsoredTx sampleSponsored accepted
                            eq_refl _ eq_refl eq_refl eq_refl eq_refl eq_refl
                            eq_refl))
              "0xabc" eq_refl).
    discriminate.
Defined.

(** C6, as stated, fails for a rejection whose [reason] is there and empty:
    [details] is then the [error], not the [reason]. *)
Lemma empty_reason_gives_error_as_details :
  br_error rejectedEmptyReason = Some "transaction rejected"
  /\ br_reason rejectedEmptyReason = Some ""
  /\ fst (fetch (sampleLib (inr rejectedEmptyReason))
            (relayPost (inr (bodyWith (JString "05")))) sampleEnv "id"
            initialWorld)
     = inr (jsonResponse 400
              (errorBody "Broadcast rejected" (Some "transaction rejected")))
  /\ Some "transaction rejected" <> br_reason rejectedEmptyReason.
Proof. repeat split. discriminate. Qed.

(** * The trace of a request *)

Lemma relayTrace_path lib env id w j resp tr w0 :
  RelayPath lib env id w j resp tr w0 ->
  relayTrace lib j env id w = tr.
Proof.
  intros Hp. unfold relayTrace. rewrite (RelayPath_sound _ _ _ _ _ _ _ _ Hp).
  apply RelayPath_world in Hp as [->|[address ->]]; cbn;
    by rewrite drop_app_length.
Qed.



(** Two descriptions of the same request agree on what was decoded. *)
Ltac same_request :=
  repeat match goal with
  | H1 : ?t = ?a, H2 : ?t = ?b |- _ =>
      lazymatch t with
      | inr _ => fail
      | inl _ => fail
      | _ => rewrite H1 in H2; first [discriminate H2 | simplify_eq]
      end
  end;
  try match goal with
  | H : truthy (JString ?s) = false, Hs : ?s <> "" |- _ =>
      apply truthy_string in Hs; congruence
  | H : forall s, JString ?s' <> JString s |- _ => by destruct (H s')
  end;
  try congruence.

(** * The sponsor credential *)




(** * The [transaction] field *)

(** C5: the code at a [transaction] that is there and is not a string, and
    at a body that is [null].  A truthy value that is not a string passes
    [if (!body.transaction)], the call of [startsWith] on it throws, and the
    outer [catch] answers 500 "Internal server error" and logs "Unexpected
    error", where the claim asks for the 400 of a bad request.  A [null]
    body ends in the same [catch] when [body.transaction] is read. *)
Theorem non_string_transaction_is_answered_500 :
  fetch (sampleLib (inr accepted)) (relayPost (inr (bodyWith (JNumber 5))))
    sampleEnv "id" initialWorld
  = (inr (jsonResponse 500
            (errorBody "Internal server error"
               (Some "body.transaction.startsWith is not a function"))),
     extend
       [logReceived "id";
        logUnexpected "id"
          (ErrorObject "body.transaction.startsWith is not a function")]
       initialWorld)
  /\ fetch (sampleLib (inr accepted)) (relayPost (inr JNull)) sampleEnv "id"
       initialWorld
     = (inr (jsonResponse 500
               (errorBody "Internal server error"
                  (Some "Cannot read properties of null (reading 'transaction')"))),
        extend
          [logReceived "id";
           logUnexpected "id"
             (ErrorObject
                "Cannot read properties of null (reading 'transaction')")]
          initialWorld).
Proof. split; reflexivity. Qed.

(** * The [0x] prefix *)

Lemma allHex_no_0x h : allHex h = true -> startsWith "0x" h = false.
Proof.
  destruct h as [|c [|d h]]; [done| |].
  { intros _. cbn [startsWith]. apply andb_false_r. }
  cbn [allHex startsWith].
  intros [_ [Hd _]%andb_true_iff]%andb_true_iff.
  destruct (Ascii.eqb_spec "x" d) as [<-|_]; [discriminate Hd|].
  cbn [andb]. apply andb_false_r.
Qed.

Lemma txHexOf_0x h : txHexOf ("0x" ++ h)%string = h.
Proof. reflexivity. Qed.

Lemma txHexOf_hex h : allHex h = true -> txHexOf h = h.
Proof. intros H. unfold txHexOf. by rewrite allHex_no_0x. Qed.

(** The handler looks at a string [transaction] only through [txHexOf]. *)
Lemma fetch_txHex lib body1 body2 s1 s2 env id w :
  get_transaction body1 = inr (JString s1) ->
  get_transaction body2 = inr (JString s2) ->
  s1 <> "" -> s2 <> "" -> txHexOf s1 = txHexOf s2 ->
  fetch lib (relayPost (inr body1)) env id w
  = fetch lib (relayPost (inr body2)) env id w.
Proof.
  intros H1 H2 Hs1%truthy_string Hs2%truthy_string Heq.
  relay_run. rewrite H1, H2. cbn in Hs1, Hs2 |- *. rewrite Hs1, Hs2. cbn.
  by rewrite Heq.
Qed.

(** C7: a non-empty string [h] of hex digits is handled in the same way
    with and without the ["0x"] prefix.  The prefix is stripped before
    decoding: in both forms the decoder is called, once and right after the
    "received" log, with [h] itself.  The response and the world afterwards
    are the same for both forms; and when [h] decodes to a sponsored
    transaction, both forms pass validation and go on to the limiter. *)
Theorem prefix_0x_is_ignored lib body0x body h env id w :
  isHexString h = true ->
  get_transaction body0x = inr (JString ("0x" ++ h)%string) ->
  get_transaction body = inr (JString h) ->
  (txHexOf ("0x" ++ h)%string = h /\ txHexOf h = h)
  /\ (exists rest,
        relayTrace lib (inr body0x) env id w
        = logReceived id :: CallDeserialize h :: rest
        /\ relayTrace lib (inr body) env id w
           = logReceived id :: CallDeserialize h :: rest
        /\ Forall (fun e => stageOf e <> Some Validate) rest
        /\ forall tx,
             deserializeTransaction lib h = inr tx ->
             authType (auth tx) = Sponsored ->
             exists rest', rest = CallDateNow :: rest')
  /\ fetch lib (relayPost (inr body0x)) env id w
     = fetch lib (relayPost (inr body)) env id w.
Proof.
  intros [Hne Hhex]%andb_true_iff H0x Hb.
  assert (h <> "") as Hh.
  { intros ->. discriminate Hne. }
  pose proof (txHexOf_hex h Hhex) as Hstrip.
  assert (fetch lib (relayPost (inr body0x)) env id w
          = fetch lib (relayPost (inr body)) env id w) as Heq.
  { apply (fetch_txHex lib body0x body ("0x" ++ h)%string h);
      [done | done | discriminate | done |].
    by rewrite txHexOf_0x. }
  split; [split; [apply txHexOf_0x | done]|]. split; [|done].
  unfold relayTrace at 1. rewrite Heq. fold (relayTrace lib (inr body) env id w).
  destruct (fetch_path lib env id w (inr body)) as (resp & tr & w0 & _ & Hp).
  rewrite (relayTrace_path _ _ _ _ _ _ _ _ Hp).
  inversion Hp; subst; same_request; rewrite Hstrip in *;
    eexists; (split; [reflexivity|]); (split; [reflexivity|]);
    (split; [repeat constructor; discriminate|]);
    intros tx' Htx' Ha'; same_request; eauto.
Qed.

Lemma prefix_0x_is_ignored_witness :
  (txHexOf "0x05" = "05" /\ txHexOf "05" = "05")
  /\ (exists rest,
        relayTrace (sampleLib (inr accepted))
          (inr (bodyWith (JString "0x05"))) sampleEnv "id" initialWorld
        = logReceived "id" :: CallDeserialize "05" :: rest
        /\ relayTrace (sampleLib (inr accepted))
             (inr (bodyWith (JString "05"))) sampleEnv "id" initialWorld
           = logReceived "id" :: CallDeserialize "05" :: rest
        /\ Forall (fun e => stageOf e <> Some Validate) rest
        /\ forall tx,
             deserializeTransaction (sampleLib (inr accepted)) "05" = inr tx ->
             authType (auth tx) = Sponsored ->
             exists rest', rest = CallDateNow :: rest')
  /\ fetch (sampleLib (inr accepted))
       (relayPost (inr (bodyWith (JString "0x05")))) sampleEnv "id"
       initialWorld
     = fetch (sampleLib (inr accepted))
         (relayPost (inr (bodyWith (JString "05")))) sampleEnv "id"
         initialWorld.
Proof.
  exact (prefix_0x_is_ignored (sampleLib (inr accepted))
           (bodyWith (JString "0x05")) (bodyWith (JString "05")) "05"
           sampleEnv "id" initialWorld eq_refl eq_refl eq_refl).
Defined.

(** * The order of the stages *)



(** * Every request gets a response *)

Lemma RelayPath_response lib env id w j resp tr w0 :
  RelayPath lib env id w j resp tr w0 ->
  exists st r,
    resp = jsonResponse st r
    /\ (st = 200 /\ error r = None /\ details r = None
        \/ (st = 400 \/ st = 429 \/ st = 500)
           /\ txid r = None /\ error r <> None).
Proof.
  destruct 1; do 2 eexists; (split; [reflexivity|]); cbn;
    first [left; by repeat split | right; by repeat split; eauto].
Qed.

Lemma fetch_elsewhere lib request env id w :
  String.eqb (pathname request) "/relay" && String.eqb (method request) "POST"
  = false ->
  exists resp,
    fetch lib request env id w = (inr resp, w)
    /\ status resp = 200
    /\ (forall h, In h corsHeaders -> In h (headers resp))
    /\ forall r, body resp <> BodyRelay r.
Proof.
  intros Hr. unfold fetch. rewrite Hr.
  destruct (String.eqb (method request) "OPTIONS");
    [|destruct (String.eqb (pathname request) "/health")];
    eexists; (split; [reflexivity|]); cbn; repeat split; auto; discriminate.
Qed.

(** X1: every response that the handler returns, on whatever branch and
    after whatever the library functions returned or threw, has status 200,
    400, 429 or 500 and carries the three CORS headers; a response with a
    JSON body also carries [Content-Type: application/json]. *)
Theorem responses_carry_cors_headers lib request env id w resp w' :
  fetch lib request env id w = (inr resp, w') ->
  (status resp = 200 \/ status resp = 400 \/ status resp = 429
   \/ status resp = 500)
  /\ In ("Access-Control-Allow-Origin", "*") (headers resp)
  /\ In ("Access-Control-Allow-Methods", "GET, POST, OPTIONS") (headers resp)
  /\ In ("Access-Control-Allow-Headers", "Content-Type") (headers resp)
  /\ (forall r, body resp = BodyRelay r ->
      In ("Content-Type", "application/json") (headers resp))
  /\ (forall st network version, body resp = BodyHealth st network version ->
      In ("Content-Type", "application/json") (headers resp)).
Proof.
  destruct (String.eqb (pathname request) "/relay"
            && String.eqb (method request) "POST") eqn:Hr.
  - rewrite (relayPost_eta request Hr).
    destruct (fetch_path lib env id w (json request))
      as (resp0 & tr & w0 & -> & Hp).
    intros [= <- <-].
    destruct (RelayPath_response _ _ _ _ _ _ _ _ Hp) as (st & r & -> & Hst).
    cbn. intuition.
  - unfold fetch. rewrite Hr.
    destruct (String.eqb (method request) "OPTIONS");
      [|destruct (String.eqb (pathname request) "/health")];
      intros [= <- <-]; cbn; intuition discriminate.
Qed.

Lemma responses_carry_cors_headers_witness :
  (status (jsonResponse 429
             (errorBody "Rate limit exceeded"
                (Some "Maximum 10 requests per minute"))) = 200
   \/ status (jsonResponse 429
                (errorBody "Rate limit exceeded"
                   (Some "Maximum 10 requests per minute"))) = 400
   \/ status (jsonResponse 429
                (errorBody "Rate limit exceeded"
                   (Some "Maximum 10 requests per minute"))) = 429
   \/ status (jsonResponse 429
                (errorBody "Rate limit exceeded"
                   (Some "Maximum 10 requests per minute"))) = 500)
  /\ In ("Access-Control-Allow-Origin", "*")
       (headers (jsonResponse 429
                   (errorBody "Rate limit exceeded"
                      (Some "Maximum 10 requests per minute")))).
Proof.
  destruct (responses_carry_cors_headers (sampleLib (inr accepted))
              (relayPost (inr (bodyWith (JString "05")))) sampleEnv "id"
              (exhaustedWorld 5)
              (jsonResponse 429
                 (errorBody "Rate limit exceeded"
                    (Some "Maximum 10 requests per minute")))
              (extend [logReceived "id"; CallDeserialize "05"; CallDateNow;
                       logRateLimited "id" "6162"] (exhaustedWorld 5))
              eq_refl) as (H1 & H2 & _).
  exact (conj H1 H2).
Defined.

(** X2: only a [POST] to [/relay] has effects: any other request (another
    path, another method, a preflight) is answered 200 with a body that is
    not a relay response, and leaves the map, the clock and the trace as
    they were: no log call, no library call, no limiter call. *)
Theorem only_relay_post_has_effects lib request env id w :
  pathname request <> "/relay" \/ method request <> "POST" ->
  exists resp,
    fetch lib request env id w = (inr resp, w)
    /\ status resp = 200
    /\ forall r, body resp <> BodyRelay r.
Proof.
  intros H.
  destruct (fetch_elsewhere lib request env id w) as (resp & Hf & Hst & _ & Hb).
  - apply andb_false_iff.
    destruct H as [H|H]; [left|right]; by apply String.eqb_neq.
  - eauto.
Qed.

Lemma only_relay_post_has_effects_witness :
  exists resp,
    fetch (sampleLib (inr accepted))
      {| method := "GET"; pathname := "/relay";
         json := inr (bodyWith (JString "05")) |}
      sampleEnv "id" (exhaustedWorld 5)
    = (inr resp, exhaustedWorld 5)
    /\ status resp = 200
    /\ forall r, body resp <> BodyRelay r.
Proof.
  apply (only_relay_post_has_effects (sampleLib (inr accepted))
           {| method := "GET"; pathname := "/relay";
              json := inr (bodyWith (JString "05")) |}).
  right. discriminate.
Defined.

(** X3: the body of the answer to a [POST /relay] has one of two shapes and
    never a mix: with status 200 it has no [error] and no [details]; with
    status 400, 429 or 500 it has an [error] and no [txid]. *)
Theorem relay_response_shape lib j env id w :
  exists st r,
    fst (fetch lib (relayPost j) env id w) = inr (jsonResponse st r)
    /\ (st = 200 /\ error r = None /\ details r = None
        \/ (st = 400 \/ st = 429 \/ st = 500)
           /\ txid r = None /\ error r <> None).
Proof.
  destruct (fetch_path lib env id w j) as (resp & tr & w0 & -> & Hp).
  destruct (RelayPath_response _ _ _ _ _ _ _ _ Hp) as (st & r & -> & H).
  by exists st, r.
Qed.

(** * What a status tells *)

Lemma checkRateLimit_rejects_exhausted address w :
  fst (checkRateLimit address w) = inr false ->
  exists e,
    rateLimitMap w !! address = Some e
    /\ 10 <= count e /\ clock w <= resetAt e.
Proof.
  rewrite checkRateLimit_result. unfold limiterStep, RATE_LIMIT.
  destruct (rateLimitMap w !! address) as [e|]; [|done].
  destruct (Z.gtb_spec (clock w) (resetAt e)); [done|].
  destruct (Z.geb_spec (count e) 10); [|done].
  intros _. exists e. repeat split; [done|lia].
Qed.

(** X4: a 200 is given only after the whole pipeline: the transaction was
    decoded and is sponsored, the limiter admitted the sender, the sponsor
    function returned, the broadcast function was called with what the
    sponsor function returned and its result has no (non-empty) [error]; the
    [txid] of the response is the one of that result. *)
Theorem success_means_broadcast lib j env id w resp :
  fst (fetch lib (relayPost j) env id w) = inr resp ->
  status resp = 200 ->
  exists body s tx stx r,
    j = inr body
    /\ get_transaction body = inr (JString s)
    /\ deserializeTransaction lib (txHexOf s) = inr tx
    /\ authType (auth tx) = Sponsored
    /\ fst (checkRateLimit (senderHexOf tx) w) = inr true
    /\ sponsorTransaction lib tx (sponsorKey env) (getNetwork env) = inr stx
    /\ broadcastTransaction lib stx (getNetwork env) = inr r
    /\ (br_error r = None \/ br_error r = Some "")
    /\ resp = jsonResponse 200
                {| txid := br_txid r; error := None; details := None |}
    /\ In (CallBroadcast stx (getNetwork env)) (relayTrace lib j env id w).
Proof.
  destruct (fetch_path lib env id w j) as (resp' & tr & w0 & Hf & Hp).
  rewrite (relayTrace_path _ _ _ _ _ _ _ _ Hp), Hf. cbn [fst].
  intros [= <-] Hst. destruct Hp; try discriminate Hst.
  do 5 eexists.
  repeat split;
    first [eassumption | reflexivity | by apply truthyStr_false
          | cbn; auto 10].
Qed.

Lemma success_means_broadcast_witness :
  exists body s tx stx r,
    @inr Thrown JsValue (bodyWith (JString "0x05")) = inr body
    /\ get_transaction body = inr (JString s)
    /\ deserializeTransaction (sampleLib (inr accepted)) (txHexOf s) = inr tx
    /\ authType (auth tx) = Sponsored
    /\ fst (checkRateLimit (senderHexOf tx) busyWorld) = inr true
    /\ sponsorTransaction (sampleLib (inr accepted)) tx (sponsorKey sampleEnv)
         (getNetwork sampleEnv) = inr stx
    /\ broadcastTransaction (sampleLib (inr accepted)) stx
         (getNetwork sampleEnv) = inr r
    /\ (br_error r = None \/ br_error r = Some "")
    /\ jsonResponse 200
         {| txid := Some "0xabc"; error := None; details := None |}
       = jsonResponse 200
           {| txid := br_txid r; error := None; details := None |}
    /\ In (CallBroadcast stx (getNetwork sampleEnv))
         (relayTrace (sampleLib (inr accepted))
            (inr (bodyWith (JString "0x05"))) sampleEnv "id" busyWorld).
Proof.
  exact (success_means_broadcast (sampleLib (inr accepted))
           (inr (bodyWith (JString "0x05"))) sampleEnv "id" busyWorld
           (jsonResponse 200
              {| txid := Some "0xabc"; error := None; details := None |})
           eq_refl eq_refl).
Defined.

(** X5: a 429 is given only to a sender that has used up its window: the
    request decoded to a sponsored transaction whose sender has an entry with
    a count of at least 10 and a [resetAt] that the clock has not passed.
    The request then changes nothing in the map and reaches neither the
    sponsor nor the broadcast function. *)
Theorem rate_limited_means_exhausted lib j env id w resp :
  fst (fetch lib (relayPost j) env id w) = inr resp ->
  status resp = 429 ->
  exists body s tx entry,
    j = inr body
    /\ get_transaction body = inr (JString s)
    /\ deserializeTransaction lib (txHexOf s) = inr tx
    /\ authType (auth tx) = Sponsored
    /\ rateLimitMap w !! senderHexOf tx = Some entry
    /\ 10 <= count entry /\ clock w <= resetAt entry
    /\ rateLimitMap (snd (fetch lib (relayPost j) env id w)) = rateLimitMap w
    /\ stages (relayTrace lib j env id w) = [Validate; RateLimit].
Proof.
  destruct (fetch_path lib env id w j) as (resp' & tr & w0 & Hf & Hp).
  rewrite (relayTrace_path _ _ _ _ _ _ _ _ Hp), Hf. cbn [fst snd].
  intros [= <-] Hst. destruct Hp; try discriminate Hst.
  match goal with
  | H : fst (checkRateLimit _ _) = inr false |- _ =>
      destruct (checkRateLimit_rejects_exhausted _ _ H)
        as (entry & He & Hc & Ht)
  end.
  do 3 eexists. exists entry.
  repeat split; first [eassumption | reflexivity].
Qed.

Lemma rate_limited_means_exhausted_witness :
  exists body s tx entry,
    @inr Thrown JsValue (bodyWith (JString "05")) = inr body
    /\ get_transaction body = inr (JString s)
    /\ deserializeTransaction (sampleLib (inr accepted)) (txHexOf s) = inr tx
    /\ authType (auth tx) = Sponsored
    /\ rateLimitMap (exhaustedWorld 60000) !! senderHexOf tx = Some entry
    /\ 10 <= count entry /\ clock (exhaustedWorld 60000) <= resetAt entry
    /\ rateLimitMap
         (snd (fetch (sampleLib (inr accepted))
                 (relayPost (inr (bodyWith (JString "05")))) sampleEnv "id"
                 (exhaustedWorld 60000)))
       = rateLimitMap (exhaustedWorld 60000)
    /\ stages (relayTrace (sampleLib (inr accepted))
                 (inr (bodyWith (JString "05"))) sampleEnv "id"
                 (exhaustedWorld 60000))
       = [Validate; RateLimit].
Proof.
  exact (rate_limited_means_exhausted (sampleLib (inr accepted))
           (inr (bodyWith (JString "05"))) sampleEnv "id"
           (exhaustedWorld 60000)
           (jsonResponse 429
              (errorBody "Rate limit exceeded"
                 (Some "Maximum 10 requests per minute")))
           eq_refl eq_refl).
Defined.

(** * What the library functions are given *)

Lemma sponsorKey_configured env :
  truthyStr (SPONSOR_PRIVATE_KEY env) = true ->
  SPONSOR_PRIVATE_KEY env = Some (sponsorKey env) /\ sponsorKey env <> "".
Proof.
  intros (k & Hk & Hne)%truthyStr_true. unfold sponsorKey. by rewrite Hk.
Qed.

Lemma getNetwork_mainnet env :
  getNetwork env = STACKS_MAINNET <-> STACKS_NETWORK env = "mainnet".
Proof.
  unfold getNetwork.
  destruct (String.eqb_spec (STACKS_NETWORK env) "mainnet"); split; done.
Qed.

(** X6: each call of a library function during a [POST /relay] is made with
    the data of that request and of the configuration.  The decoder gets the
    [transaction] string of the body without its ["0x"] prefix; the sponsor
    function gets the decoded transaction, the configured (non-empty)
    credential and the network; the broadcast function gets what the sponsor
    function returned for these, and the same network.  The network is
    mainnet exactly when [STACKS_NETWORK] is ["mainnet"]. *)
Theorem calls_carry_the_request lib j env id w e :
  In e (relayTrace lib j env id w) ->
  match e with
  | CallDeserialize hex =>
      exists body s,
        j = inr body /\ get_transaction body = inr (JString s) /\ s <> ""
        /\ hex = txHexOf s
  | CallSponsor tx key net =>
      exists body s,
        j = inr body /\ get_transaction body = inr (JString s)
        /\ deserializeTransaction lib (txHexOf s) = inr tx
        /\ SPONSOR_PRIVATE_KEY env = Some key /\ key <> ""
        /\ net = getNetwork env
        /\ (net = STACKS_MAINNET <-> STACKS_NETWORK env = "mainnet")
  | CallBroadcast stx net =>
      exists body s tx key,
        j = inr body /\ get_transaction body = inr (JString s)
        /\ deserializeTransaction lib (txHexOf s) = inr tx
        /\ SPONSOR_PRIVATE_KEY env = Some key
        /\ sponsorTransaction lib tx key net = inr stx
        /\ net = getNetwork env
        /\ (net = STACKS_MAINNET <-> STACKS_NETWORK env = "mainnet")
  | CallDateNow | CallLog _ _ _ _ => True
  end.
Proof.
  destruct (fetch_path lib env id w j) as (resp & tr & w0 & _ & Hp).
  rewrite (relayTrace_path _ _ _ _ _ _ _ _ Hp). intros Hin.
  destruct Hp; cbn in Hin;
    repeat match goal with
    | H : truthyStr (SPONSOR_PRIVATE_KEY _) = true |- _ =>
        apply sponsorKey_configured in H as [? ?]
    end;
    repeat (destruct Hin as [<-|Hin]); try contradiction; try exact I;
    repeat eexists;
    first [eassumption | reflexivity | apply getNetwork_mainnet
          | apply getNetwork_mainnet].
Qed.

Lemma calls_carry_the_request_witness :
  exists body s tx key,
    @inr Thrown JsValue (bodyWith (JString "0x05")) = inr body
    /\ get_transaction body = inr (JString s)
    /\ deserializeTransaction (sampleLib (inr accepted)) (txHexOf s) = inr tx
    /\ SPONSOR_PRIVATE_KEY mainnetEnv = Some key
    /\ sponsorTransaction (sampleLib (inr accepted)) tx key STACKS_MAINNET
       = inr sampleSponsored
    /\ STACKS_MAINNET = getNetwork mainnetEnv
    /\ (STACKS_MAINNET = STACKS_MAINNET
        <-> STACKS_NETWORK mainnetEnv = "mainnet").
Proof.
  refine (calls_carry_the_request (sampleLib (inr accepted))
            (inr (bodyWith (JString "0x05"))) mainnetEnv "id" initialWorld
            (CallBroadcast sampleSponsored STACKS_MAINNET) _).
  vm_compute. do 4 right. left. reflexivity.
Defined.

(** * Who pays for a request *)

Lemma hexDigit_inj a b :
  (a < 16)%nat -> (b < 16)%nat -> hexDigit a = hexDigit b -> a = b.
Proof.
  intros Ha Hb.
  do 16 (destruct a as [|a];
         [do 16 (destruct b as [|b];
                 [intros H; vm_compute in H;
                  first [reflexivity | discriminate H]|]); lia|]).
  lia.
Qed.

Lemma hex_pair_inj c d :
  hexDigit (Nat.div (nat_of_ascii c) 16) = hexDigit (Nat.div (nat_of_ascii d) 16) ->
  hexDigit (Nat.modulo (nat_of_ascii c) 16)
  = hexDigit (Nat.modulo (nat_of_ascii d) 16) ->
  c = d.
Proof.
  intros Hq Hr.
  pose proof (nat_ascii_bounded c) as Hc.
  pose proof (nat_ascii_bounded d) as Hd.
  apply hexDigit_inj in Hq;
    [|apply Nat.Div0.div_lt_upper_bound; lia
     |apply Nat.Div0.div_lt_upper_bound; lia].
  apply hexDigit_inj in Hr; [|apply Nat.mod_upper_bound; lia..].
  rewrite <- (ascii_nat_embedding c), <- (ascii_nat_embedding d).
  f_equal.
  rewrite (Nat.div_mod_eq (nat_of_ascii c) 16),
    (Nat.div_mod_eq (nat_of_ascii d) 16).
  congruence.
Qed.

Lemma toHex_inj s : forall s', toHex s = toHex s' -> s = s'.
Proof.
  induction s as [|c s IH]; intros [|d s']; cbn [toHex]; try done.
  intros [= Hq Hr Hrest]. f_equal; [by apply hex_pair_inj | by apply IH].
Qed.

Lemma senderHexOf_inj tx other :
  signer (spendingCondition (auth tx))
  <> signer (spendingCondition (auth other)) ->
  senderHexOf tx <> senderHexOf other.
Proof. intros H Heq. by apply H, toHex_inj. Qed.

(** The map after a request whose [transaction] decodes. *)
Lemma fetch_map_decoded lib body s env id w tx :
  get_transaction body = inr (JString s) ->
  deserializeTransaction lib (txHexOf s) = inr tx ->
  rateLimitMap (snd (fetch lib (relayPost (inr body)) env id w))
  = rateLimitMap w
  \/ authType (auth tx) = Sponsored /\ s <> ""
     /\ rateLimitMap (snd (fetch lib (relayPost (inr body)) env id w))
        = rateLimitMap (snd (checkRateLimit (senderHexOf tx) w)).
Proof.
  intros Hb Htx.
  destruct (fetch_path lib env id w (inr body)) as (resp & tr & w0 & -> & Hp).
  inversion Hp; subst; cbn [snd extend rateLimitMap]; auto; same_request;
    right; repeat split; try done;
    match goal with
    | H : fst (checkRateLimit _ _) = inr false |- _ =>
        by rewrite (checkRateLimit_rejects_keeps_map _ _ H)
    end.
Qed.

(** X7: the limiter is charged before the credential is looked at and before
    any sponsoring: for a request whose transaction decodes and is
    sponsored, the map afterwards is the map after one call of the limiter
    for the sender, whatever the configuration, the sponsor function and the
    broadcast function do.  A request that ends in a 500 uses up a slot like
    one that ends in a 200. *)
Theorem quota_is_spent_before_sponsoring lib body s env id w tx :
  get_transaction body = inr (JString s) -> s <> "" ->
  deserializeTransaction lib (txHexOf s) = inr tx ->
  authType (auth tx) = Sponsored ->
  rateLimitMap (snd (fetch lib (relayPost (inr body)) env id w))
  = rateLimitMap (snd (checkRateLimit (senderHexOf tx) w)).
Proof.
  intros Hb Hs Htx Ha.
  destruct (fetch_path lib env id w (inr body)) as (resp & tr & w0 & -> & Hp).
  inversion Hp; subst; cbn [snd extend rateLimitMap]; same_request;
    try reflexivity.
  match goal with
  | H : fst (checkRateLimit _ _) = inr false |- _ =>
      by rewrite (checkRateLimit_rejects_keeps_map _ _ H)
  end.
Qed.

Lemma quota_is_spent_before_sponsoring_witness :
  rateLimitMap
    (snd (fetch (sampleLib (inl NonError))
            (relayPost (inr (bodyWith (JString "05")))) unconfiguredEnv "id"
            busyWorld))
  = rateLimitMap (snd (checkRateLimit (senderHexOf sponsoredTx) busyWorld)).
Proof.
  refine (quota_is_spent_before_sponsoring (sampleLib (inl NonError))
            (bodyWith (JString "05")) "05" unconfiguredEnv "id" busyWorld
            sponsoredTx eq_refl _ eq_refl eq_refl).
  discriminate.
Defined.

(** X8: a request is charged to its own signer only: the entry of any other
    signer is the same before and after, because the key of the map is the
    hex encoding of the signer and that encoding is injective. *)
Theorem other_senders_keep_their_quota lib body s env id w tx other :
  get_transaction body = inr (JString s) ->
  deserializeTransaction lib (txHexOf s) = inr tx ->
  signer (spendingCondition (auth tx))
  <> signer (spendingCondition (auth other)) ->
  rateLimitMap (snd (fetch lib (relayPost (inr body)) env id w))
    !! senderHexOf other
  = rateLimitMap w !! senderHexOf other.
Proof.
  intros Hb Htx Hne%senderHexOf_inj.
  destruct (fetch_map_decoded lib body s env id w tx Hb Htx)
    as [->|(_ & _ & ->)]; [done|].
  rewrite checkRateLimit_map. by apply lookup_insert_ne.
Qed.

Lemma other_senders_keep_their_quota_witness :
  rateLimitMap
    (snd (fetch twoSignerLib (relayPost (inr (bodyWith (JString "06"))))
            sampleEnv "id" busyWorld))
    !! senderHexOf sponsoredTx
  = rateLimitMap busyWorld !! senderHexOf sponsoredTx.
Proof.
  refine (other_senders_keep_their_quota twoSignerLib
            (bodyWith (JString "06")) "06" sampleEnv "id" busyWorld otherTx
            sponsoredTx eq_refl eq_refl _).
  discriminate.
Defined.

(** * The window of a sender *)

Lemma admissions_app address l1 : forall l2 w,
  admissions address (l1 ++ l2) w
  = (fst (admissions address l1 w)
       ++ fst (admissions address l2 (snd (admissions address l1 w))),
     snd (admissions address l2 (snd (admissions address l1 w)))).
Proof.
  induction l1 as [|t l1 IH]; intros l2 w.
  - cbn. by destruct (admissions address l2 w).
  - cbn [app admissions].
    destruct (checkRateLimit address (setClock t w)) as [r w1].
    rewrite IH. by destruct (admissions address l1 w1).
Qed.

(** A window that starts with the call at [t0]. *)
Lemma admissions_fresh address w t0 times :
  rateLimitMap w !! address = None
  \/ (exists e, rateLimitMap w !! address = Some e /\ t0 > resetAt e) ->
  Forall (fun t => t <= t0 + 60000) times ->
  fst (admissions address (t0 :: times) w)
  = map (fun i => inr (Z.of_nat i <? 10)) (seq 0 (S (length times)))
  /\ rateLimitMap (snd (admissions address (t0 :: times) w)) !! address
     = Some {| count := Z.min 10 (1 + Z.of_nat (length times));
               resetAt := t0 + 60000 |}.
Proof.
  intros Hfresh Hts.
  assert (limiterStep t0 (rateLimitMap w !! address)
          = (true, {| count := 1; resetAt := t0 + 60000 |})) as Hstep.
  { destruct Hfresh as [->|(e & -> & Ht)]; [reflexivity|].
    unfold limiterStep. destruct (Z.gtb_spec t0 (resetAt e)); [done | lia]. }
  cbn [admissions]. rewrite checkRateLimit_run. cbn zeta.
  cbn [clock setClock rateLimitMap]. rewrite Hstep. cbn [fst snd].
  set (w1 := record _ _).
  destruct (admissions_in_window address times w1 1 (t0 + 60000))
    as [Hrs Hm]; [subst w1; cbn; by rewrite lookup_insert_eq
                 | unfold RATE_LIMIT; lia | done |].
  destruct (admissions address times w1) as [rs w2]. cbn [fst snd] in *.
  split; [|exact Hm].
  cbn [length seq map]. f_equal. rewrite <- seq_shift, map_map, Hrs.
  apply map_ext. intros i. unfold RATE_LIMIT. do 2 f_equal. lia.
Qed.

(** X9: the window is fixed by its first call.  After any number of further
    calls of the sender up to [resetAt], admitted or rejected, the entry
    still has the [resetAt] of the first call, and its count is the number
    of calls made, capped at 10: a sender that keeps calling does not push
    its own [resetAt] forward. *)
Theorem window_is_fixed_by_its_first_call address w t0 times :
  rateLimitMap w !! address = None
  \/ (exists e, rateLimitMap w !! address = Some e /\ t0 > resetAt e) ->
  Forall (fun t => t <= t0 + 60000) times ->
  rateLimitMap (snd (admissions address (t0 :: times) w)) !! address
  = Some {| count := Z.min 10 (1 + Z.of_nat (length times));
            resetAt := t0 + 60000 |}.
Proof. intros Hfresh Hts. by apply admissions_fresh. Qed.

Lemma window_is_fixed_by_its_first_call_witness :
  rateLimitMap
    (snd (admissions (toHex "ab")
            [70000; 70001; 70002; 70003; 70004; 70005; 70006; 70007; 70008;
             70009; 70010; 130000]
            (exhaustedWorld 0))) !! toHex "ab"
  = Some {| count := Z.min 10 (1 + Z.of_nat 11); resetAt := 70000 + 60000 |}.
Proof.
  apply (window_is_fixed_by_its_first_call (toHex "ab") (exhaustedWorld 0)
           70000
           [70001; 70002; 70003; 70004; 70005; 70006; 70007; 70008; 70009;
            70010; 130000]).
  - right. exists {| count := 10; resetAt := 60000 |}.
    split; [reflexivity | cbn; lia].
  - repeat constructor; lia.
Defined.

(** X10: the limit is per window, not per minute.  Ten calls in one window
    and ten calls in the next are all admitted, however close the last of
    the first ten and the first of the next ten are: up to twenty requests of
    one sender pass around a window boundary. *)
Theorem twenty_pass_around_a_boundary address w t0 times1 t1 times2 :
  rateLimitMap w !! address = None
  \/ (exists e, rateLimitMap w !! address = Some e /\ t0 > resetAt e) ->
  length times1 = 9%nat -> Forall (fun t => t <= t0 + 60000) times1 ->
  t1 > t0 + 60000 ->
  length times2 = 9%nat -> Forall (fun t => t <= t1 + 60000) times2 ->
  fst (admissions address ((t0 :: times1) ++ (t1 :: times2)) w)
  = replicate 20 (inr true).
Proof.
  intros Hfresh Hl1 Hts1 Ht1 Hl2 Hts2.
  rewrite admissions_app. cbn [fst].
  destruct (admissions_fresh address w t0 times1 Hfresh Hts1) as [-> Hm].
  destruct (admissions_fresh address
              (snd (admissions address (t0 :: times1) w)) t1 times2)
    as [-> _]; [|done|].
  - right. eexists. split; [exact Hm | cbn; lia].
  - rewrite Hl1, Hl2. reflexivity.
Qed.

Lemma twenty_pass_around_a_boundary_witness :
  fst (admissions (toHex "ab")
         ([59990; 59991; 59992; 59993; 59994; 59995; 59996; 59997; 59998;
           59999]
          ++ [119991; 119992; 119993; 119994; 119995; 119996; 119997; 119998;
              119999; 120000])
         initialWorld)
  = replicate 20 (inr true).
Proof.
  apply (twenty_pass_around_a_boundary (toHex "ab") initialWorld 59990
           [59991; 59992; 59993; 59994; 59995; 59996; 59997; 59998; 59999]
           119991
           [119992; 119993; 119994; 119995; 119996; 119997; 119998; 119999;
            120000]).
  - left. reflexivity.
  - reflexivity.
  - repeat constructor; lia.
  - lia.
  - reflexivity.
  - repeat constructor; lia.
Defined.

(** * The keys of the map *)

Lemma checkRateLimit_keeps_keys address w k :
  is_Some (rateLimitMap w !! k) ->
  is_Some (rateLimitMap (snd (checkRateLimit address w)) !! k).
Proof.
  intros H. rewrite checkRateLimit_map.
  destruct (decide (address = k)) as [->|Hne].
  - rewrite lookup_insert_eq. eauto.
  - by rewrite lookup_insert_ne.
Qed.

Lemma fetch_keeps_keys lib request env id w k :
  is_Some (rateLimitMap w !! k) ->
  is_Some (rateLimitMap (snd (fetch lib request env id w)) !! k).
Proof.
  intros H.
  destruct (String.eqb (pathname request) "/relay"
            && String.eqb (method request) "POST") eqn:Hr.
  - rewrite (relayPost_eta request Hr).
    destruct (fetch_path lib env id w (json request))
      as (resp & tr & w0 & -> & Hp).
    apply RelayPath_world in Hp as [->|[address ->]]; cbn; [done|].
    by apply checkRateLimit_keeps_keys.
  - by destruct (fetch_elsewhere lib request env id w Hr) as (resp & -> & _).
Qed.

(** X11: nothing ever removes an entry.  A sender that has an entry keeps
    one through every later call of the limiter and every later request, of
    whatever sender and at whatever time; the map of an instance only
    grows. *)
Theorem entries_are_never_removed steps w k :
  is_Some (rateLimitMap w !! k) ->
  is_Some (rateLimitMap (run steps w) !! k).
Proof.
  unfold run. revert w.
  induction steps as [|[t st] steps IH]; intros w H; [done|].
  cbn [fold_left]. apply IH. destruct st as [address|lib request env id]; cbn.
  - by apply checkRateLimit_keeps_keys.
  - by apply fetch_keeps_keys.
Qed.

Lemma entries_are_never_removed_witness :
  is_Some (rateLimitMap
             (run [(1000000, LimiterCall (toHex "cd"));
                   (2000000, Handle twoSignerLib
                               (relayPost (inr (bodyWith (JString "06"))))
                               sampleEnv "id")]
                busyWorld) !! toHex "ab").
Proof.
  apply (entries_are_never_removed
           [(1000000, LimiterCall (toHex "cd"));
            (2000000, Handle twoSignerLib
                        (relayPost (inr (bodyWith (JString "06"))))
                        sampleEnv "id")]
           busyWorld (toHex "ab")).
  eexists. reflexivity.
Defined.

(** * The log calls of a request *)

(** X12: every log call of a [POST /relay] is made under the application id
    ["x402-relay"] and has the request id as the first entry of its context,
    and the first call of the request is the "Relay request received" log:
    all events of one request can be found by its id. *)
Theorem every_log_carries_the_request_id lib j env id w :
  (exists rest, relayTrace lib j env id w = logReceived id :: rest)
  /\ forall level app message context,
       In (CallLog level app message context) (relayTrace lib j env id w) ->
       app = "x402-relay"
       /\ head context = Some ("request_id", LogString id).
Proof.
  destruct (fetch_path lib env id w j) as (resp & tr & w0 & _ & Hp).
  rewrite (relayTrace_path _ _ _ _ _ _ _ _ Hp).
  destruct Hp; (split; [eauto|]); intros level app message context Hin;
    cbn in Hin; repeat (destruct Hin as [Hin|Hin]); try contradiction;
    try discriminate Hin; by injection Hin as <- <- <- <-.
Qed.

Lemma every_log_carries_the_request_id_witness :
  "x402-relay" = "x402-relay"
  /\ head [("request_id", LogString "7f3a");
           ("error", LogString "Unknown error")]
     = Some ("request_id", LogString "7f3a").
Proof.
  refine (proj2 (every_log_carries_the_request_id (sampleLib (inl NonError))
                   (inr (bodyWith (JString "05"))) sampleEnv "7f3a"
                   initialWorld)
            Error "x402-relay" "Failed to broadcast transaction"
            [("request_id", LogString "7f3a");
             ("error", LogString "Unknown error")] _).
  vm_compute. do 5 right. left. reflexivity.
Defined.

(** X13: besides the "received" log, a [POST /relay] logs its outcome once,
    except that a missing [transaction] field is answered without any
    outcome log.  The outcome is logged at level info exactly when the
    status is 200, at level error when the status is 500 and at level warn
    when it is 429. *)
Theorem outcome_is_logged_once lib j env id w :
  exists st r,
    fst (fetch lib (relayPost j) env id w) = inr (jsonResponse st r)
    /\ (logLevels (relayTrace lib j env id w) = [Info]
        /\ st = 400 /\ r = errorBody "Missing transaction field" None
        \/ exists level,
             logLevels (relayTrace lib j env id w) = [Info; level]
             /\ (level = Info <-> st = 200)
             /\ (st = 500 -> level = Error)
             /\ (st = 429 -> level = Warn)).
Proof.
  destruct (fetch_path lib env id w j) as (resp & tr & w0 & -> & Hp).
  rewrite (relayTrace_path _ _ _ _ _ _ _ _ Hp).
  destruct Hp; do 2 eexists; (split; [reflexivity|]); cbn;
    first [left; by repeat split
          | right; eexists; split; [reflexivity|];
            repeat split; intros; congruence].
Qed.

(** * The test script and the handler *)

Lemma allHex_toHex s : allHex (toHex s) = true.
Proof.
  induction s as [|c s IH]; [done|]. cbn [toHex allHex]. rewrite IH.
  by destruct c as [[] [] [] [] [] [] [] []].
Qed.

(** X14: the hex string that [scripts/test-relay.ts] builds from a
    non-empty serialized transaction is what the handler hands to the
    decoder, character for character: it is never taken for a missing field,
    and nothing is stripped from it, since a hex encoding has no ["0x"] in
    front. *)
Theorem script_hex_reaches_the_decoder lib serialized env id w :
  serialized <> "" ->
  exists rest,
    relayTrace lib (json (scriptRequest serialized)) env id w
    = logReceived id :: CallDeserialize (scriptTxHex serialized) :: rest.
Proof.
  intros Hne. unfold scriptRequest. cbn [json relayPost].
  set (body := JObject _).
  assert (get_transaction body = inr (JString (scriptTxHex serialized)))
    as Hb by reflexivity.
  assert (scriptTxHex serialized <> "") as Hs.
  { unfold scriptTxHex. by destruct serialized. }
  assert (txHexOf (scriptTxHex serialized) = scriptTxHex serialized) as Hhex
    by apply txHexOf_hex, allHex_toHex.
  destruct (fetch_path lib env id w (inr body)) as (resp & tr & w0 & _ & Hp).
  rewrite (relayTrace_path _ _ _ _ _ _ _ _ Hp).
  inversion Hp; subst; same_request; rewrite Hhex; eauto.
Qed.

Lemma script_hex_reaches_the_decoder_witness :
  exists rest,
    relayTrace (sampleLib (inr accepted)) (json (scriptRequest "ab"))
      sampleEnv "id" initialWorld
    = logReceived "id" :: CallDeserialize (scriptTxHex "ab") :: rest.
Proof.
  apply (script_hex_reaches_the_decoder (sampleLib (inr accepted)) "ab").
  discriminate.
Defined.

(** * A sender's requests, one after the other *)

Lemma fetch_validated_outcome lib body s env id w tx :
  get_transaction body = inr (JString s) -> s <> "" ->
  deserializeTransaction lib (txHexOf s) = inr tx ->
  authType (auth tx) = Sponsored ->
  is429 (fst (fetch lib (relayPost (inr body)) env id w))
  = negb (fst (limiterStep (clock w) (rateLimitMap w !! senderHexOf tx)))
  /\ rateLimitMap (snd (fetch lib (relayPost (inr body)) env id w))
     = <[senderHexOf tx :=
           snd (limiterStep (clock w) (rateLimitMap w !! senderHexOf tx))]>
         (rateLimitMap w)
  /\ clock (snd (fetch lib (relayPost (inr body)) env id w)) = clock w.
Proof.
  intros Hb Hs Htx Ha.
  destruct (fetch_path lib env id w (inr body)) as (resp & tr & w0 & -> & Hp).
  inversion Hp; subst; same_request; cbn [fst snd extend rateLimitMap clock];
    match goal with
    | H : fst (checkRateLimit _ _) = inr _ |- _ =>
        pose proof H as H'; rewrite checkRateLimit_result in H';
        injection H' as ->
    end;
    (split; [reflexivity|]); (split; [|reflexivity]).
  1: rewrite <- checkRateLimit_map;
     by rewrite checkRateLimit_rejects_keeps_map.
  all: by rewrite <- checkRateLimit_map.
Qed.

Lemma serve_follows_limiter address arrivals :
  Forall (validFrom address) arrivals ->
  forall w w',
    rateLimitMap w = rateLimitMap w' ->
    map is429 (fst (serve arrivals w))
    = map (fun r => match r with inr b => negb b | inl _ => false end)
        (fst (admissions address (map arrivesAt arrivals) w')).
Proof.
  induction 1 as [|a arrivals Ha _ IH]; intros w w' Hm; [done|].
  destruct Ha as (body & s & tx & Hreq & Hb & Hs & Htx & Hauth & <-).
  cbn [serve admissions map]. rewrite Hreq.
  destruct (fetch_validated_outcome (arrivalLib a) body s (arrivalEnv a)
              (arrivalId a) (setClock (arrivesAt a) w) tx Hb Hs Htx Hauth)
    as (H429 & Hmap & _).
  destruct (fetch (arrivalLib a) (relayPost (inr body)) (arrivalEnv a)
              (arrivalId a) (setClock (arrivesAt a) w)) as [r w1].
  rewrite checkRateLimit_run. cbn zeta. cbn [fst snd] in *.
  cbn [clock setClock rateLimitMap] in *.
  set (w1' := record _ _).
  specialize (IH w1 w1').
  destruct (serve arrivals w1) as [rs w2].
  destruct (admissions (senderHexOf tx) (map arrivesAt arrivals) w1')
    as [bs w2'].
  cbn [fst map] in *. rewrite H429, Hm. f_equal.
  apply IH. subst w1'. cbn. by rewrite Hmap, Hm.
Qed.

(** X15: a sender's valid requests follow the limiter.  Take any requests
    that decode to sponsored transactions of one sender, each with its own
    request id, its own configuration and its own behaviour of the sponsor
    and the broadcast function, handled one after the other from the start
    of a window up to its [resetAt]: the first ten are not answered 429 and
    every later one is. *)
Theorem eleventh_request_is_rejected address first rest w :
  Forall (validFrom address) (first :: rest) ->
  rateLimitMap w !! address = None
  \/ (exists e,
        rateLimitMap w !! address = Some e /\ arrivesAt first > resetAt e) ->
  Forall (fun a => arrivesAt a <= arrivesAt first + 60000) rest ->
  map is429 (fst (serve (first :: rest) w))
  = map (fun i => negb (Z.of_nat i <? 10)) (seq 0 (S (length rest))).
Proof.
  intros Hvalid Hfresh Hts.
  rewrite (serve_follows_limiter address (first :: rest) Hvalid w w eq_refl).
  cbn [map].
  destruct (admissions_fresh address w (arrivesAt first)
              (map arrivesAt rest) Hfresh) as [-> _].
  { by apply Forall_map. }
  by rewrite map_map, length_map.
Qed.

Lemma sampleArrivals_valid : Forall (validFrom (toHex "ab")) sampleArrivals.
Proof.
  repeat constructor;
    exists (bodyWith (JString "0x05")), "0x05"%string, sponsoredTx;
    repeat split; discriminate.
Defined.

Lemma eleventh_request_is_rejected_witness :
  map (fun r => match r with inr resp => status resp | inl _ => 0 end)
    (fst (serve sampleArrivals initialWorld))
  = [200; 400; 500; 500; 400; 200; 500; 200; 400; 200; 429]
  /\ map is429 (fst (serve sampleArrivals initialWorld))
     = [false; false; false; false; false; false; false; false; false; false;
        true].
Proof.
  split; [reflexivity|].
  refine (eleventh_request_is_rejected (toHex "ab")
            (sampleArrival 0 "r0" (inr accepted) sampleEnv)
            (tail sampleArrivals) initialWorld sampleArrivals_valid
            (or_introl eq_refl) _).
  repeat constructor; cbn; lia.
Defined.
